(** * Current-affairs app: the request orchestrator, the sheet-append
    endpoint and the export transformations

  A shallow embedding of
  - [src/services/gemini.ts]   ([processCurrentAffairs], its retry loop),
  - [server.ts]                (the [/api/sheets/update] handler),
  - [App.tsx]                  ([handleDownloadHtml], [handleDownloadExcel]),
  followed by the properties of the specification stated over it.

  Strings.  A JavaScript string is carried as a Rocq [string] holding
  its UTF-8 bytes.  Concatenation, [split] on an ASCII separator, [join]
  and [includes] with an ASCII needle commute with that encoding.
  [toLowerCase] is modelled on the ASCII letters only; the three
  [includes] tests of the retry loop are not affected (no character
  outside ASCII lowercases to a run of ASCII letters that occurs in
  the needles: U+0130 yields an [i] followed by U+0307, U+212A yields
  a [k]). *)

From Stdlib Require Import String Ascii List ZArith Bool Lia DecimalString.
Import ListNotations.

Set Warnings "-register-all".

Local Open Scope list_scope.
Local Open Scope string_scope.

(* ===================================================================== *)
(** * JavaScript string primitives used by the sources                    *)
(* ===================================================================== *)

Module JSString.

(** The double-quote character. *)
Definition dquote : ascii := ascii_of_nat 34.

(** Templates below are written with [^] where the source has a double
    quote; [unq] puts the quotes back.  No template of the sources
    contains [^]. *)
Fixpoint unq (s : string) : string :=
  match s with
  | EmptyString => EmptyString
  | String c s' => String (if Ascii.eqb c "^" then dquote else c) (unq s')
  end.

(** [s.includes(needle)] *)
Fixpoint includes (s needle : string) : bool :=
  if String.prefix needle s then true
  else match s with
       | EmptyString => false
       | String _ s' => includes s' needle
       end.

Definition lower_char (c : ascii) : ascii :=
  let n := nat_of_ascii c in
  if (65 <=? n)%nat && (n <=? 90)%nat then ascii_of_nat (n + 32) else c.

(** [s.toLowerCase()] (ASCII letters, see the header). *)
Fixpoint toLowerCase (s : string) : string :=
  match s with
  | EmptyString => EmptyString
  | String c s' => String (lower_char c) (toLowerCase s')
  end.

(** [s.split(sep)] for a one-character separator: the segments between
    the occurrences of [sep]; never the empty list. *)
Fixpoint split (sep : ascii) (s : string) : list string :=
  match s with
  | EmptyString => [EmptyString]
  | String c s' =>
      if Ascii.eqb c sep then EmptyString :: split sep s'
      else match split sep s' with
           | seg :: segs => String c seg :: segs
           | [] => [String c EmptyString]
           end
  end.

(** [xs.join(sep)] on an array of strings. *)
Fixpoint join (sep : string) (xs : list string) : string :=
  match xs with
  | [] => EmptyString
  | [x] => x
  | x :: rest => x ++ sep ++ join sep rest
  end.

(** [a || b] where [a] is a string or [undefined]: the empty string and
    [undefined] are falsy. *)
Definition or_else (a : option string) (b : string) : string :=
  match a with
  | Some (String c s) => String c s
  | _ => b
  end.

(** Decimal rendering of an integer ([String(n)] on a safe integer). *)
Definition of_Z (z : Z) : string := NilZero.string_of_int (Z.to_int z).

End JSString.

(* ===================================================================== *)
(** * JSON values and [JSON.parse]                                        *)
(* ===================================================================== *)

Module JSON.
Import JSString.

(** A parsed value.  A number is kept as the numeral it was written
    with; [Binary64] below gives the Number it stands for where the code
    looks at it.  An object is the list of its members in the order of
    its own keys: the array indices in ascending order, then the other
    keys in the order of their first occurrence; a repeated key keeps
    its last value, as [JSON.parse] does. *)
Inductive json : Type :=
| JNull
| JBool (b : bool)
| JNumber (numeral : string)
| JString (s : string)
| JArray (elems : list json)
| JObject (members : list (string * json)).

Fixpoint lookup (k : string) (kv : list (string * json)) : option json :=
  match kv with
  | [] => None
  | (k', v) :: rest => if String.eqb k k' then Some v else lookup k rest
  end.

Fixpoint obj_set (kv : list (string * json)) (k : string) (v : json)
  : list (string * json) :=
  match kv with
  | [] => [(k, v)]
  | (k', v') :: rest =>
      if String.eqb k k' then (k', v) :: rest
      else (k', v') :: obj_set rest k v
  end.

(** The array index a key stands for: a canonical numeral (no leading
    zero) of at most [2^32 - 2]. *)
Fixpoint index_digits (acc : N) (k : string) : option N :=
  match k with
  | EmptyString => Some acc
  | String c k' =>
      let n := N_of_ascii c in
      if (48 <=? n)%N && (n <=? 57)%N
      then index_digits (10 * acc + (n - 48))%N k'
      else None
  end.

Definition array_index (k : string) : option N :=
  match k with
  | EmptyString => None
  | String c k' =>
      if Ascii.eqb c "0" && negb (String.eqb k' EmptyString) then None
      else if (10 <? String.length k)%nat then None
      else
        match index_digits 0 k with
        | Some n => if (n <=? 4294967294)%N then Some n else None
        | None => None
        end
  end.

(** Insertion of an indexed member into a list sorted by index. *)
Fixpoint insert_indexed (i : N) (m : string * json)
    (l : list (N * (string * json))) : list (N * (string * json)) :=
  match l with
  | [] => [(i, m)]
  | (j, m') :: rest =>
      if (i <? j)%N then (i, m) :: l else (j, m') :: insert_indexed i m rest
  end.

(** The members in the order of the own keys of the object. *)
Definition own_key_order (ms : list (string * json)) : list (string * json) :=
  (map snd
     (fold_left
        (fun acc m =>
           match array_index (fst m) with
           | Some i => insert_indexed i m acc
           | None => acc
           end) ms [])
   ++ filter (fun m => match array_index (fst m) with
                       | Some _ => false
                       | None => true
                       end) ms)%list.

Definition obj_of_members (ms : list (string * json)) : json :=
  JObject
    (own_key_order (fold_left (fun acc m => obj_set acc (fst m) (snd m)) ms [])).

(** Induction on a value with the hypothesis for every element of an
    array and for every member of an object. *)
Section NestedInduction.
Variable P : json -> Prop.
Hypothesis Hnull : P JNull.
Hypothesis Hbool : forall b, P (JBool b).
Hypothesis Hnumber : forall n, P (JNumber n).
Hypothesis Hstring : forall s, P (JString s).
Hypothesis Harray : forall elems, Forall P elems -> P (JArray elems).
Hypothesis Hobject :
  forall members, Forall (fun m => P (snd m)) members -> P (JObject members).

Fixpoint json_nested_ind (v : json) : P v :=
  match v with
  | JNull => Hnull
  | JBool b => Hbool b
  | JNumber n => Hnumber n
  | JString s => Hstring s
  | JArray elems =>
      Harray elems
        ((fix all (l : list json) : Forall P l :=
            match l with
            | [] => Forall_nil P
            | x :: rest => Forall_cons x (json_nested_ind x) (all rest)
            end) elems)
  | JObject members =>
      Hobject members
        ((fix all (l : list (string * json))
            : Forall (fun m => P (snd m)) l :=
            match l with
            | [] => Forall_nil _
            | m :: rest =>
                Forall_cons m (json_nested_ind (snd m)) (all rest)
            end) members)
  end.

End NestedInduction.

(** ** Lexical layer *)

Definition is_ws (c : ascii) : bool :=
  let n := nat_of_ascii c in
  (n =? 32)%nat || (n =? 9)%nat || (n =? 10)%nat || (n =? 13)%nat.

Fixpoint skip_ws (s : string) : string :=
  match s with
  | String c s' => if is_ws c then skip_ws s' else s
  | EmptyString => s
  end.

Definition is_digit (c : ascii) : bool :=
  let n := nat_of_ascii c in (48 <=? n)%nat && (n <=? 57)%nat.

(** The longest prefix of digits and what follows it. *)
Fixpoint span_digits (s : string) : string * string :=
  match s with
  | String c s' =>
      if is_digit c
      then let (ds, r) := span_digits s' in (String c ds, r)
      else (EmptyString, s)
  | EmptyString => (EmptyString, EmptyString)
  end.

Definition hex_val (c : ascii) : option N :=
  let n := N_of_ascii c in
  if (48 <=? n)%N && (n <=? 57)%N then Some (n - 48)%N
  else if (65 <=? n)%N && (n <=? 70)%N then Some (n - 55)%N
  else if (97 <=? n)%N && (n <=? 102)%N then Some (n - 87)%N
  else None.

Definition parse_hex4 (s : string) : option (N * string) :=
  match s with
  | String a (String b (String c (String d r))) =>
      match hex_val a, hex_val b, hex_val c, hex_val d with
      | Some x, Some y, Some z, Some w =>
          Some (((x * 16 + y) * 16 + z) * 16 + w, r)%N
      | _, _, _, _ => None
      end
  | _ => None
  end.

Definition byte (n : N) : ascii := ascii_of_N n.

(** UTF-8 bytes of a code point (a lone surrogate is written with the
    three-byte pattern as well). *)
Definition utf8 (cp : N) : string :=
  if (cp <? 128)%N then String (byte cp) EmptyString
  else if (cp <? 2048)%N then
    String (byte (192 + cp / 64))
      (String (byte (128 + cp mod 64)) EmptyString)
  else if (cp <? 65536)%N then
    String (byte (224 + cp / 4096))
      (String (byte (128 + (cp / 64) mod 64))
         (String (byte (128 + cp mod 64)) EmptyString))
  else
    String (byte (240 + cp / 262144))
      (String (byte (128 + (cp / 4096) mod 64))
         (String (byte (128 + (cp / 64) mod 64))
            (String (byte (128 + cp mod 64)) EmptyString))).

Definition is_high (u : N) : bool := (55296 <=? u)%N && (u <=? 56319)%N.
Definition is_low (u : N) : bool := (56320 <=? u)%N && (u <=? 57343)%N.

(** The text of a [\uXXXX] escape whose four digits gave [u]; a high
    surrogate directly followed by an escaped low surrogate is one
    code point. *)
Definition unicode_escape (u : N) (r : string) : string * string :=
  if is_high u then
    match r with
    | String b (String c r') =>
        if Ascii.eqb b "\" && Ascii.eqb c "u" then
          match parse_hex4 r' with
          | Some (l, r'') =>
              if is_low l
              then (utf8 (65536 + (u - 55296) * 1024 + (l - 56320)), r'')
              else (utf8 u, r)
          | None => (utf8 u, r)
          end
        else (utf8 u, r)
    | _ => (utf8 u, r)
    end
  else (utf8 u, r).

Definition simple_escape (c : ascii) : option ascii :=
  if Ascii.eqb c dquote then Some dquote
  else if Ascii.eqb c "\" then Some "\"%char
  else if Ascii.eqb c "/" then Some "/"%char
  else if Ascii.eqb c "b" then Some (ascii_of_nat 8)
  else if Ascii.eqb c "f" then Some (ascii_of_nat 12)
  else if Ascii.eqb c "n" then Some (ascii_of_nat 10)
  else if Ascii.eqb c "r" then Some (ascii_of_nat 13)
  else if Ascii.eqb c "t" then Some (ascii_of_nat 9)
  else None.

(** The outcome of a parser that runs on fuel: a value and the text
    left, a syntax error, or the fuel used up. *)
Inductive parsed (A : Type) : Type :=
| Ok (a : A) (rest : string)
| Bad
| OutOfFuel.

Arguments Ok {A} a rest.
Arguments Bad {A}.
Arguments OutOfFuel {A}.

Definition bind {A B : Type} (p : parsed A) (k : A -> string -> parsed B)
  : parsed B :=
  match p with
  | Ok a r => k a r
  | Bad => Bad
  | OutOfFuel => OutOfFuel
  end.

Definition lift {A : Type} (o : option (A * string)) : parsed A :=
  match o with
  | Some (a, r) => Ok a r
  | None => Bad
  end.

Notation "'parse!' ( x , r ) <- p ; k" :=
  (bind p (fun x r => k))
    (at level 10, x name, r name, p at level 100, k at level 200,
     only parsing).

(** The characters of a string literal, after its opening quote. *)
Fixpoint parse_chars (fuel : nat) (s : string) : parsed string :=
  match fuel with
  | O => OutOfFuel
  | S fuel' =>
      match s with
      | EmptyString => Bad
      | String c s' =>
          if Ascii.eqb c dquote then Ok EmptyString s'
          else if Ascii.eqb c "\" then
            match s' with
            | EmptyString => Bad
            | String e s'' =>
                match simple_escape e with
                | Some ch =>
                    parse! (t, r) <- parse_chars fuel' s'';
                    Ok (String ch t) r
                | None =>
                    if Ascii.eqb e "u" then
                      match parse_hex4 s'' with
                      | Some (u, r0) =>
                          parse! (t, r) <-
                            parse_chars fuel' (snd (unicode_escape u r0));
                          Ok (fst (unicode_escape u r0) ++ t) r
                      | None => Bad
                      end
                    else Bad
                end
            end
          else if (nat_of_ascii c <? 32)%nat then Bad
          else
            parse! (t, r) <- parse_chars fuel' s';
            Ok (String c t) r
      end
  end.

(** A string literal, after its opening quote. *)
Definition parse_string (s : string) : parsed string :=
  parse_chars (S (String.length s)) s.

(** A numeral: an optional minus sign; an integer part, either 0 or a
    non-zero digit and further digits; an optional fraction, a point and
    one digit or more; an optional exponent, e or E, an optional sign
    and one digit or more. *)
Definition parse_int_part (s : string) : option (string * string) :=
  match s with
  | String c s' =>
      if Ascii.eqb c "0" then Some ("0", s')
      else if is_digit c then
        let (ds, r) := span_digits s' in Some (String c ds, r)
      else None
  | EmptyString => None
  end.

Definition parse_frac (s : string) : option (string * string) :=
  match s with
  | String c s' =>
      if Ascii.eqb c "." then
        match span_digits s' with
        | (EmptyString, _) => None
        | (ds, r) => Some (String c ds, r)
        end
      else Some (EmptyString, s)
  | EmptyString => Some (EmptyString, s)
  end.

Definition parse_exp (s : string) : option (string * string) :=
  match s with
  | String c s' =>
      if Ascii.eqb c "e" || Ascii.eqb c "E" then
        let (sign, s'') :=
          match s' with
          | String g t =>
              if Ascii.eqb g "+" || Ascii.eqb g "-"
              then (String g EmptyString, t) else (EmptyString, s')
          | EmptyString => (EmptyString, s')
          end in
        match span_digits s'' with
        | (EmptyString, _) => None
        | (ds, r) => Some (String c (sign ++ ds), r)
        end
      else Some (EmptyString, s)
  | EmptyString => Some (EmptyString, s)
  end.

Definition parse_number (s : string) : option (string * string) :=
  let (sign, s0) :=
    match s with
    | String c t => if Ascii.eqb c "-" then ("-", t) else (EmptyString, s)
    | EmptyString => (EmptyString, s)
    end in
  match parse_int_part s0 with
  | None => None
  | Some (i, s1) =>
      match parse_frac s1 with
      | None => None
      | Some (f, s2) =>
          match parse_exp s2 with
          | None => None
          | Some (e, s3) => Some (sign ++ i ++ f ++ e, s3)
          end
      end
  end.

(** [expect w s]: [s] without its prefix [w]. *)
Fixpoint expect (w s : string) : option string :=
  match w with
  | EmptyString => Some s
  | String a w' =>
      match s with
      | String b s' => if Ascii.eqb a b then expect w' s' else None
      | EmptyString => None
      end
  end.

(** ** Values *)

Fixpoint parse_value (fuel : nat) (s : string) : parsed json :=
  match fuel with
  | O => OutOfFuel
  | S fuel' =>
      match skip_ws s with
      | EmptyString => Bad
      | String c s' =>
          if Ascii.eqb c "[" then
            match skip_ws s' with
            | String d r =>
                if Ascii.eqb d "]" then Ok (JArray []) r
                else
                  parse! (l, r') <- parse_elements fuel' s';
                  Ok (JArray l) r'
            | EmptyString => Bad
            end
          else if Ascii.eqb c "{" then
            match skip_ws s' with
            | String d r =>
                if Ascii.eqb d "}" then Ok (JObject []) r
                else
                  parse! (ms, r') <- parse_members fuel' s';
                  Ok (obj_of_members ms) r'
            | EmptyString => Bad
            end
          else if Ascii.eqb c dquote then
            parse! (t, r) <- parse_string s';
            Ok (JString t) r
          else if Ascii.eqb c "t" then
            parse! (_u, r) <- lift (option_map (pair tt) (expect "rue" s'));
            Ok (JBool true) r
          else if Ascii.eqb c "f" then
            parse! (_u, r) <- lift (option_map (pair tt) (expect "alse" s'));
            Ok (JBool false) r
          else if Ascii.eqb c "n" then
            parse! (_u, r) <- lift (option_map (pair tt) (expect "ull" s'));
            Ok JNull r
          else
            parse! (n, r) <- lift (parse_number (String c s'));
            Ok (JNumber n) r
      end
  end

(** The elements of an array, after [[] or [,]. *)
with parse_elements (fuel : nat) (s : string) : parsed (list json) :=
  match fuel with
  | O => OutOfFuel
  | S fuel' =>
      parse! (v, r) <- parse_value fuel' s;
      match skip_ws r with
      | String d r' =>
          if Ascii.eqb d "," then
            parse! (l, r'') <- parse_elements fuel' r';
            Ok (v :: l) r''
          else if Ascii.eqb d "]" then Ok [v] r'
          else Bad
      | EmptyString => Bad
      end
  end

(** The members of an object, after [{] or [,]. *)
with parse_members (fuel : nat) (s : string)
  : parsed (list (string * json)) :=
  match fuel with
  | O => OutOfFuel
  | S fuel' =>
      match skip_ws s with
      | String q s0 =>
          if Ascii.eqb q dquote then
            parse! (k, s1) <- parse_string s0;
            match skip_ws s1 with
            | String colon s2 =>
                if Ascii.eqb colon ":" then
                  parse! (v, r) <- parse_value fuel' s2;
                  match skip_ws r with
                  | String d r' =>
                      if Ascii.eqb d "," then
                        parse! (ms, r'') <- parse_members fuel' r';
                        Ok ((k, v) :: ms) r''
                      else if Ascii.eqb d "}" then Ok [(k, v)] r'
                      else Bad
                  | EmptyString => Bad
                  end
                else Bad
            | EmptyString => Bad
            end
          else Bad
      | EmptyString => Bad
      end
  end.

(** The fuel [parse] gives to [parse_value]: every level of nesting and
    every further element use up at least one character. *)
Definition fuel_for (text : string) : nat := 2 * String.length text + 2.

(** [JSON.parse(text)]: [Some v] for the value of a JSON text, [None]
    where JavaScript throws a [SyntaxError]. *)
Definition parse (text : string) : option json :=
  match parse_value (fuel_for text) text with
  | Ok v r =>
      match skip_ws r with
      | EmptyString => Some v
      | String _ _ => None
      end
  | Bad => None
  | OutOfFuel => None
  end.

End JSON.

(* ===================================================================== *)
(** * Numbers: the binary64 value of a numeral and its text               *)
(* ===================================================================== *)

(** [JSON.parse] turns a numeral into the nearest binary64 value, and
    [String(x)], which [join] applies to a number, prints the shortest
    decimal that reads back as [x].  Both are computed here on exact
    integers. *)

Module Binary64.
Import JSString JSON.
Local Open Scope Z_scope.

(** The value of a run of decimal digits, continuing from [acc]. *)
Fixpoint digits_value (acc : Z) (s : string) : Z :=
  match s with
  | EmptyString => acc
  | String c s' =>
      digits_value (10 * acc + (Z.of_nat (nat_of_ascii c) - 48)) s'
  end.

(** A JSON numeral as sign, natural mantissa [m] and decimal exponent
    [e]: its value is [m * 10^e], negated when the sign is set. *)
Definition decimal (n : string) : bool * Z * Z :=
  let (neg, s0) :=
    match n with
    | String c t => if Ascii.eqb c "-" then (true, t) else (false, n)
    | EmptyString => (false, n)
    end in
  let (ip, s1) := span_digits s0 in
  let (fp, s2) :=
    match s1 with
    | String c t => if Ascii.eqb c "." then span_digits t else (EmptyString, s1)
    | EmptyString => (EmptyString, s1)
    end in
  let ex :=
    match s2 with
    | String _ (String g u) =>
        if Ascii.eqb g "-" then - digits_value 0 (fst (span_digits u))
        else if Ascii.eqb g "+" then digits_value 0 (fst (span_digits u))
        else digits_value 0 (fst (span_digits (String g u)))
    | _ => 0
    end in
  (neg, digits_value 0 (ip ++ fp)%string, ex - Z.of_nat (String.length fp)).

(** A non-negative Number value: zero, the finite value [m * 2^e] with
    [0 < m <= 2^53], or infinity. *)
Inductive magnitude : Type :=
| Zero
| Finite (m e : Z)
| Infinite.

(** [p / q] as the pair of its numerator and denominator after
    multiplication by [2^k], for any integer [k]. *)
Definition scale2 (p q k : Z) : Z * Z :=
  if 0 <=? k then (p * 2 ^ k, q) else (p, q * 2 ^ (- k)).

(** The largest [e] with [2^e <= p / q], for positive [p] and [q]. *)
Definition floor_log2 (p q : Z) : Z :=
  let e0 := Z.log2 p - Z.log2 q in
  let (a, b) := scale2 p q (- e0) in
  if b <=? a then e0 else e0 - 1.

(** The Number value of the positive rational [p / q]: the nearest
    binary64 value, ties to the even significand. *)
Definition round (p q : Z) : magnitude :=
  let e := floor_log2 p q in
  let sh := Z.max e (-1022) - 52 in
  let (a, b) := scale2 p q (- sh) in
  let k := a / b in
  let r := a mod b in
  let m :=
    if 2 * r <? b then k
    else if b <? 2 * r then k + 1
    else if Z.even k then k else k + 1 in
  if m =? 0 then Zero
  else if (1024 <=? e) || ((m =? 2 ^ 53) && (sh =? 971)) then Infinite
  else Finite m sh.

(** The number of decimal digits of a positive integer. *)
Definition digit_count (m : Z) : Z := Z.of_nat (String.length (of_Z m)).

(** The Number value of [m * 10^e].  Values below [10^-330] are zero and
    values from [10^310] on infinite without further computation. *)
Definition of_decimal (m e : Z) : magnitude :=
  if m =? 0 then Zero
  else if e + digit_count m <? -330 then Zero
  else if 310 <? e + digit_count m then Infinite
  else if 0 <=? e then round (m * 10 ^ e) 1
  else round m (10 ^ (- e)).

Definition same (x y : magnitude) : bool :=
  match x, y with
  | Zero, Zero => true
  | Infinite, Infinite => true
  | Finite m e, Finite m' e' =>
      let d := Z.min e e' in (m * 2 ^ (e - d) =? m' * 2 ^ (e' - d))
  | _, _ => false
  end.

(** [n] with [10^(n-1) <= p / q < 10^n], for positive [p] and [q]:
    an estimate from the binary logarithms, then corrected. *)
Fixpoint settle (fuel : nat) (p q n : Z) : Z :=
  match fuel with
  | O => n
  | S fuel' =>
      let (a, b) := if 0 <=? n then (p, q * 10 ^ n) else (p * 10 ^ (- n), q) in
      if b <=? a then settle fuel' p q (n + 1)
      else
        let (a', b') :=
          if 0 <=? n - 1 then (p, q * 10 ^ (n - 1))
          else (p * 10 ^ (1 - n), q) in
        if a' <? b' then settle fuel' p q (n - 1) else n
  end.

Definition decimal_exponent (p q : Z) : Z :=
  settle 8 p q (((Z.log2 p - Z.log2 q) * 30103) / 100000).

(** The digits [s] and the exponent [n] of the shortest decimal
    [s * 10^(n-k)], [k] digits long, whose Number value is [x = p / q];
    among two of the same length the one nearer to [x], the even one on
    a tie. *)
Fixpoint shortest (fuel : nat) (k : Z) (x : magnitude) (p q n0 : Z) : Z * Z :=
  match fuel with
  | O => (0, n0)
  | S fuel' =>
      (* t = x * 10^(k - n0) = a / b *)
      let (a, b) :=
        if 0 <=? k - n0 then (p * 10 ^ (k - n0), q)
        else (p, q * 10 ^ (n0 - k)) in
      let lo := a / b in
      let r := a mod b in
      let hi := lo + 1 in
      let ok (s : Z) := same (of_decimal s (n0 - k)) x in
      let pick_lo := (lo, n0) in
      let pick_hi := if hi =? 10 ^ k then (10 ^ (k - 1), n0 + 1) else (hi, n0) in
      match ok lo, ok hi with
      | true, true =>
          if 2 * r <? b then pick_lo
          else if b <? 2 * r then pick_hi
          else if Z.even lo then pick_lo else pick_hi
      | true, false => pick_lo
      | false, true => pick_hi
      | false, false => shortest fuel' (k + 1) x p q n0
      end
  end.

Fixpoint zeros (n : nat) : string :=
  match n with O => EmptyString | S n' => String "0" (zeros n') end.

(** [Number::toString] of the positive finite value [m * 2^e]. *)
Definition finite_to_string (m e : Z) : string :=
  let (p, q) := scale2 m 1 e in
  let n0 := decimal_exponent p q in
  let (s, n) := shortest 17 1 (Finite m e) p q n0 in
  let ds := of_Z s in
  let k := Z.of_nat (String.length ds) in
  if (k <=? n) && (n <=? 21) then
    (ds ++ zeros (Z.to_nat (n - k)))%string
  else if (0 <? n) && (n <=? 21) then
    (substring 0 (Z.to_nat n) ds ++ "."
       ++ substring (Z.to_nat n) (Z.to_nat (k - n)) ds)%string
  else if (-6 <? n) && (n <=? 0) then
    ("0." ++ zeros (Z.to_nat (- n)) ++ ds)%string
  else
    let ex := (if 0 <=? n - 1 then "+" else "-") ++ of_Z (Z.abs (n - 1)) in
    if k =? 1 then (ds ++ "e" ++ ex)%string
    else (substring 0 1 ds ++ "."
            ++ substring 1 (Z.to_nat (k - 1)) ds ++ "e" ++ ex)%string.

(** The Number value of a numeral, without its sign. *)
Definition magnitude_of (numeral : string) : magnitude :=
  let '(_, m, e) := decimal numeral in of_decimal m e.

(** [String(x)] for the Number [x] a numeral is parsed to. *)
Definition to_string (numeral : string) : string :=
  let '(neg, m, e) := decimal numeral in
  match of_decimal m e with
  | Zero => "0"
  | Finite m2 e2 =>
      ((if neg then "-" else "") ++ finite_to_string m2 e2)%string
  | Infinite => ((if neg then "-" else "") ++ "Infinity")%string
  end.

(** The Number a numeral is parsed to is [+0] or [-0]. *)
Definition is_zero (numeral : string) : bool :=
  match magnitude_of numeral with Zero => true | _ => false end.

End Binary64.
(* ===================================================================== *)
(** * The request orchestrator ([src/services/gemini.ts])                 *)
(* ===================================================================== *)

Module Gemini.
Import JSString JSON.

Definition SYSTEM_PROMPT : string := unq "
You are a Current Affairs Content Editor and Layout Formatter for competitive exams (Banking, SSC, UPSC, Railway, State Exams).

You specialize in producing structured, exam-ready content categorized strictly by the following sections and subsections.

📄 CATEGORIZATION RULES:
Assign each news item a 'title' (Section) and 'subTitle' (Subsection) from the list below.
If a news item does not fit any specific category, use:
- title: ^Current Affairs^
- subTitle: ^CA^

LIST OF SECTIONS (title) AND SUBSECTIONS (subTitle):
1. GOVERNMENT / POLITY: Cabinet Approvals, Cabinet Committee, CCEA (Economic Affairs), CCS (Security), CCPA (Political Affairs), Union Cabinet Decisions, Acts & Bills, Ordinances, Constitutional Amendments, Policies, Rules & Regulations, Government Notifications
2. BANKING & FINANCE: Banking Affairs, RBI, Monetary Policy, Repo / Reverse Repo, Digital Banking, UPI / NPCI, Payment Systems, Financial Inclusion, Insurance, Pension Schemes, Capital Markets, SEBI, NABARD, EPFO, ESIC, LIC
3. BANK-WISE: SBI, Bank of Baroda (BoB), Punjab National Bank (PNB), Canara Bank, Union Bank of India, Indian Bank, Central Bank of India, UCO Bank, Regional Rural Banks (RRBs), Small Finance Banks, Payments Banks
4. LAUNCHES: App Launches, Portal Launches, Scheme Launches, Mission Launches, Policy Launches, Digital Platforms, Mobile Applications, Web Portals, Financial Products, Banking Apps, Government Initiatives
5. DEFENCE: Military Exercises, Missiles, Weapons Systems, Defence Acquisitions, Defence PSUs, Defence Manufacturing, Joint Exercises, Naval Exercises, Air Force Exercises, Army Exercises, Defence Agreements, CCS-linked Defence Decisions
6. SPORTS: Tournaments, Winners, Runners-up, Hosts, Venues, Records, Rankings, Sports Awards, Cups & Trophies, Individual Achievements, Team Achievements
7. MOU & COLLABORATIONS: MoUs, Agreements, Partnerships, Joint Ventures, International Collaborations, Domestic Collaborations
8. APPOINTMENTS: Chairman, CEO / MD, Governors, Directors, Secretaries, Committee Heads, Brand Ambassadors, Election Appointments
9. AWARDS & HONOURS: National Awards, International Awards, Civilian Awards, Sports Awards, Literary Awards, Film Awards, Defence Awards
10. INTERNATIONAL: International Summits, Global Reports, Global Indexes, International Organizations, UN / UNESCO, IMF / World Bank, Bilateral Relations
11. ENVIRONMENT & SCIENCE: Climate Change, Environment Policies, Ramsar Sites, Wildlife Sanctuaries, National Parks, Scientific Missions, Space Missions, ISRO, Research Initiatives
12. ECONOMY & INFRASTRUCTURE: Economic Affairs, GDP / Inflation, Budget, MSP, Infrastructure Projects, Roads / Railways, Ports & Airports, Power & Energy
13. CORPORATE & BUSINESS: Acquisitions, Mergers, Stake Sales, Disinvestment, Corporate Deals, PSUs
14. FIRST-IN-NEWS: First in India, First in World, First-ever Initiative, Unique Achievements
15. STATE CURRENT AFFAIRS: State Schemes, State Policies, State Awards, State Appointments, State Infrastructure
16. OTHERS (MISC): Census, Committees, Reports, Rankings, Days & Themes, Foundations / Anniversaries

YOUR TASK:
1. Read all uploaded PDFs completely.
2. Extract only exam-relevant current affairs.
3. Remove: Advertisements, Coaching names, Telegram links, MCQs, Repetitive explanations.
4. Rewrite content in simple, formal, exam-focused English.
5. Categorize each item using the titles and subTitles above.

📄 OUTPUT STRUCTURE:
Return a list of news items. For each news item, provide:
- title: The Section name from the list above.
- subTitle: The Subsection name from the list above.
- date: The date of the news (e.g., 18 February 2026).
- headline: A clear, exam-oriented headline.
- content: A list of 4–8 factual, crisp bullet points (no paragraphs).
- staticGk: A list of background facts (Full forms, HQs, Year of launch, Ministers, etc.). If none, return an empty list.

📌 CONTENT RULES:
* Focus on WHAT, WHO, WHEN, WHERE, WHY.
* Dates, names, amounts, places must be accurate.
* Do NOT repeat the same Static GK in multiple topics.
".

(** [interface NewsItem] *)
Record NewsItem : Type :=
  { title : string;
    subTitle : string;
    date : string;
    headline : string;
    content : list string;
    staticGk : list string }.

(** ** The request *)

(** [Type.STRING], [Type.ARRAY], [Type.OBJECT] of the SDK, as far as
    the declared schema uses them. *)
Inductive schema : Type :=
| TString
| TArray (items : schema)
| TObject (properties : list (string * schema)) (required : list string).

Inductive part : Type :=
| InlineData (payload mime : string)
| TextPart (text : string).

Record Content : Type := { role : string; parts : list part }.

Record generation_config : Type :=
  { responseMimeType : string; responseSchema : schema }.

Record request : Type :=
  { model : string; contents : list Content; config : generation_config }.

Record uploaded : Type := { data : string; mimeType : string }.

(** [file.data.split(',')[1] || file.data] *)
Definition inline_payload (d : string) : string :=
  or_else (nth_error (split "," d) 1) d.

Definition file_part (f : uploaded) : part :=
  InlineData (inline_payload (data f)) (mimeType f).

Definition declaredSchema : schema :=
  TArray
    (TObject
       [ ("title", TString); ("subTitle", TString); ("date", TString);
         ("headline", TString); ("content", TArray TString);
         ("staticGk", TArray TString) ]
       [ "title"; "subTitle"; "date"; "headline"; "content"; "staticGk" ]).

Definition requestConfig (files : list uploaded) : request :=
  {| model := "gemini-3-flash-preview";
     contents :=
       [ {| role := "user";
            parts := (map file_part files ++ [TextPart SYSTEM_PROMPT])%list |} ];
     config := {| responseMimeType := "application/json";
                  responseSchema := declaredSchema |} |}.

(** ** Thrown values *)

(** What the retry loop reads from a caught value: [status] and [code]
    are compared with the number 503, [message] is tested only when it
    is a string.  [POther] stands for any value that is neither
    [undefined], an integral number nor a string. *)
Inductive js_prim : Type :=
| PUndefined
| PNumber (n : Z)
| PString (s : string)
| POther.

(** A thrown value: [undefined] (the initial [lastError]) or an object
    with its constructor name and the three properties above.  A thrown
    primitive reads like an object without these properties. *)
Inductive exn : Type :=
| ExnUndefined
| ExnObject (name : string) (status code message : js_prim).

(** [new Error(msg)] *)
Definition new_Error (msg : string) : exn :=
  ExnObject "Error" PUndefined PUndefined (PString msg).

Definition NO_API_KEY : string :=
  "GEMINI_API_KEY is not configured. Please add it to your environment variables.".

Definition FORMAT_FAILURE : string :=
  "Failed to process content into structured format.".

(** [err?.status], [err?.code], [err?.message] *)
Definition get_status (err : exn) : js_prim :=
  match err with ExnObject _ s _ _ => s | ExnUndefined => PUndefined end.
Definition get_code (err : exn) : js_prim :=
  match err with ExnObject _ _ c _ => c | ExnUndefined => PUndefined end.
Definition get_message (err : exn) : js_prim :=
  match err with ExnObject _ _ _ m => m | ExnUndefined => PUndefined end.

(** [v === 503] *)
Definition is_number_503 (v : js_prim) : bool :=
  match v with PNumber n => (n =? 503)%Z | _ => false end.

(** [typeof v === "string" && test(v)] *)
Definition string_and (v : js_prim) (test : string -> bool) : bool :=
  match v with PString m => test m | _ => false end.

Definition is503 (err : exn) : bool :=
  is_number_503 (get_status err)
  || is_number_503 (get_code err)
  || string_and (get_message err) (fun m => includes m "503")
  || string_and (get_message err)
       (fun m => includes (toLowerCase m) "unavailable")
  || string_and (get_message err)
       (fun m => includes (toLowerCase m) "high demand").

(** ** The environment and the effects *)

(** [process.env] *)
Record env : Type := { GEMINI_API_KEY : option string }.

(** [!apiKey]: the key is absent or the empty string. *)
Definition no_key (e : env) : bool :=
  match GEMINI_API_KEY e with
  | Some (String _ _) => false
  | _ => true
  end.

(** What one call of [ai.models.generateContent] comes back with: a
    response and its [text] ([None] for [undefined]), or a rejection. *)
Inductive outcome : Type :=
| Resolved (text : option string)
| Rejected (err : exn).

(** The service, as the loop sees it: the outcome of its [i]-th call,
    counted from 0.  Each iteration of the loop makes one call, so the
    call of iteration [attempt] is call number [attempt]. *)
Definition service : Type := nat -> outcome.

Inductive event : Type :=
| EvGenerate (req : request)        (* ai.models.generateContent(req) *)
| EvConsoleError (msg : string)     (* console.error *)
| EvConsoleWarn (msg : string)      (* console.warn *)
| EvSleep (ms : Z).                 (* setTimeout(resolve, ms), awaited *)

Inductive completion : Type :=
| Return (v : json)
| Throw (e : exn).

Definition run : Type := completion * list event.

Definition MAX_RETRIES : nat := 4.
Definition BASE_DELAY_MS : Z := 5000.

(** [BASE_DELAY_MS * Math.pow(2, attempt)] *)
Definition backoff (attempt : nat) : Z :=
  (BASE_DELAY_MS * 2 ^ Z.of_nat attempt)%Z.

Definition retry_warning (attempt : nat) : string :=
  "Gemini 503 – retrying in " ++ of_Z (backoff attempt / 1000)
    ++ "s (attempt " ++ of_Z (Z.of_nat attempt + 1) ++ "/"
    ++ of_Z (Z.of_nat MAX_RETRIES) ++ ")...".

(** ** The retry loop *)

(** The [for] loop from iteration [attempt] on; [remaining] is
    [MAX_RETRIES - attempt], the number of iterations the loop guard
    still admits.  When the guard fails the function goes on to
    [throw lastError].

    [on_catch] is the [catch (err)] block.  It also receives the error
    that the inner [catch (e)] throws, since that [throw] stands inside
    the outer [try]. *)
Fixpoint attempts_from (svc : service) (req : request)
    (remaining attempt : nat) (lastError : exn) : run :=
  match remaining with
  | O => (Throw lastError, [])
  | S remaining' =>
      let on_catch (err : exn) (done : list event) : run :=
        if is503 err && (attempt <? MAX_RETRIES - 1)%nat then
          let (c, later) :=
            attempts_from svc req remaining' (S attempt) err in
          (c, (done ++ [EvConsoleWarn (retry_warning attempt);
                        EvSleep (backoff attempt)] ++ later)%list)
        else (Throw err, done) in
      match svc attempt with
      | Resolved text =>
          match JSON.parse (or_else text "[]") with
          | Some v => (Return v, [EvGenerate req])
          | None =>
              on_catch (new_Error FORMAT_FAILURE)
                [EvGenerate req;
                 EvConsoleError "Failed to parse Gemini response as JSON"]
          end
      | Rejected err => on_catch err [EvGenerate req]
      end
  end.

Definition processCurrentAffairs (e : env) (svc : service)
    (files : list uploaded) : run :=
  if no_key e then (Throw (new_Error NO_API_KEY), [])
  else attempts_from svc (requestConfig files) MAX_RETRIES 0 ExnUndefined.

(** ** Observations on a run *)

(** The number of calls made to the service. *)
Fixpoint attempts_made (evs : list event) : nat :=
  match evs with
  | [] => 0
  | EvGenerate _ :: rest => S (attempts_made rest)
  | _ :: rest => attempts_made rest
  end.

(** The delays waited for, in order. *)
Fixpoint delays (evs : list event) : list Z :=
  match evs with
  | [] => []
  | EvSleep ms :: rest => ms :: delays rest
  | _ :: rest => delays rest
  end.

(** Calls and waits in the order they happen (console output left
    out). *)
Inductive step : Type := Call | Wait (ms : Z).

Fixpoint schedule (evs : list event) : list step :=
  match evs with
  | [] => []
  | EvGenerate _ :: rest => Call :: schedule rest
  | EvSleep ms :: rest => Wait ms :: schedule rest
  | _ :: rest => schedule rest
  end.

Definition total_delay (evs : list event) : Z :=
  fold_right Z.add 0%Z (delays evs).

(** The events of [k] failed iterations that are retried, from
    iteration [a] on. *)
Definition retry_prefix (req : request) (a k : nat) : list event :=
  flat_map
    (fun i => [EvGenerate req; EvConsoleWarn (retry_warning i);
               EvSleep (backoff i)])
    (seq a k).

(** [transient o]: the call was rejected with a value the loop classes
    as a 503. *)
Definition transient (o : outcome) : bool :=
  match o with Rejected err => is503 err | Resolved _ => false end.

(** The trigger set in the words of the specification: [status] or
    [code] equal to 503, or a message containing "503", or containing
    "unavailable" or "high demand" in any letter case. *)
Definition in_trigger_set (err : exn) : Prop :=
  get_status err = PNumber 503
  \/ get_code err = PNumber 503
  \/ exists m, get_message err = PString m
               /\ (includes m "503" = true
                   \/ includes (toLowerCase m) "unavailable" = true
                   \/ includes (toLowerCase m) "high demand" = true).

(** The most that the iterations from [a] on can still wait, in
    milliseconds. *)
Definition delay_left (a : nat) : Z :=
  match a with
  | 0 => 35000%Z
  | 1 => 30000%Z
  | 2 => 20000%Z
  | _ => 0%Z
  end.

(** The three backoff delays, in milliseconds. *)
Definition BACKOFF_MS : list Z := [5000; 10000; 20000]%Z.

(** A service that answers its calls with the outcomes of [script] in
    turn and with [then_on] from then on. *)
Definition scripted (script : list outcome) (then_on : outcome) : service :=
  fun i => nth i script then_on.

Definition overloaded : outcome :=
  Rejected (ExnObject "ApiError" (PNumber 503) PUndefined
              (PString "The model is overloaded. Please try again later.")).

Definition bad_request : exn :=
  ExnObject "ApiError" (PNumber 400) PUndefined
    (PString "Request contains an invalid argument.").

Definition with_key : env := {| GEMINI_API_KEY := Some "key" |}.

Definition sample_body : string :=
  unq "[{^title^:^SPORTS^,^subTitle^:^Winners^,^date^:^18 February 2026^,^headline^:^H^,^content^:[^p1^,^p2^],^staticGk^:[]}]".

Definition sample_value : json :=
  JArray
    [ JObject
        [ ("title", JString "SPORTS"); ("subTitle", JString "Winners");
          ("date", JString "18 February 2026"); ("headline", JString "H");
          ("content", JArray [JString "p1"; JString "p2"]);
          ("staticGk", JArray []) ] ].

(** ** The document payload in other words *)

(** The text after the first comma of [s], when [s] has a comma. *)
Fixpoint after_first_comma (s : string) : option string :=
  match s with
  | EmptyString => None
  | String c s' => if Ascii.eqb c "," then Some s' else after_first_comma s'
  end.

(** The text of [s] before its first comma; all of [s] when it has no
    comma. *)
Fixpoint before_comma (s : string) : string :=
  match s with
  | EmptyString => EmptyString
  | String c s' =>
      if Ascii.eqb c "," then EmptyString else String c (before_comma s')
  end.

Definition sample_pdf : uploaded :=
  {| data := "data:application/pdf;base64,JVBERi0xLjQK";
     mimeType := "application/pdf" |}.

(** ** Conformance to the declared schema *)

(** [conforms sch v]: [v] has the shape [sch] declares (the listed
    properties, where present, have their declared shape; the required
    ones are present). *)
Fixpoint conforms (sch : schema) (v : json) : bool :=
  match sch, v with
  | TString, JString _ => true
  | TArray items, JArray elems => forallb (conforms items) elems
  | TObject properties required, JObject members =>
      forallb (fun k => match lookup k members with
                        | Some _ => true | None => false end) required
      && forallb (fun p => match lookup (fst p) members with
                           | Some x => conforms (snd p) x
                           | None => true end) properties
  | _, _ => false
  end.

(** A response body is valid when it is a JSON text whose value
    conforms to [declaredSchema]. *)
Definition valid_body (body : string) : bool :=
  match JSON.parse body with
  | Some v => conforms declaredSchema v
  | None => false
  end.

(** ** The failures a run retries *)

(** How many of the calls [a], [a+1], ... come back transient in a row,
    looking at [n] calls at most. *)
Fixpoint leading_transients (svc : service) (a n : nat) : nat :=
  match n with
  | O => 0
  | S n' =>
      if transient (svc a) then S (leading_transients svc (S a) n') else 0
  end.

(** The requests of the calls made, in order. *)
Fixpoint requests_sent (evs : list event) : list request :=
  match evs with
  | [] => []
  | EvGenerate r :: rest => r :: requests_sent rest
  | _ :: rest => requests_sent rest
  end.

End Gemini.
(* ===================================================================== *)
(** * The sheet-append endpoint ([server.ts], [/api/sheets/update])       *)
(* ===================================================================== *)

Module Server.
Import JSString JSON.

(** [Credentials] of google-auth-library: an object, hence truthy. *)
Record credentials : Type :=
  { access_token : option string; refresh_token : option string }.

(** [req.session]; [tokens] is set by [/auth/callback] only. *)
Record session_data : Type := { tokens : option credentials }.

(** The request as the handler reads it: [req.session] and
    [req.body.data] ([None] for [undefined]).  [express.json()] has
    parsed the body. *)
Record http_request : Type :=
  { session : option session_data; body_data : option json }.

Record env : Type := { SPREADSHEET_ID : option string }.

Record response : Type := { status : Z; body : json }.

(** A cell of [values]: a JavaScript value, [None] for [undefined]. *)
Definition cell : Type := option json.

Record append_request : Type :=
  { spreadsheetId : string;
    range : string;
    valueInputOption : string;
    values : list (list cell) }.

(** [sheets.spreadsheets.values.append]: resolves ([None]) or rejects
    with an error whose [message] is given ([Some None] when the error
    has no message). *)
Definition sheets_api : Type := append_request -> option (option string).

Inductive event : Type :=
| EvSetCredentials (t : credentials)
| EvAppend (r : append_request)
| EvConsoleError (msg : string).

(** Truthiness of a parsed value; a number is falsy when it is [0] or
    [-0] (a numeral never gives [NaN]). *)
Definition truthy (v : json) : bool :=
  match v with
  | JNull => false
  | JBool b => b
  | JNumber n => negb (Binary64.is_zero n)
  | JString s => negb (String.eqb s EmptyString)
  | JArray _ => true
  | JObject _ => true
  end.

(** The message of the [TypeError] of [ToPrimitive]. *)
Definition NOT_PRIMITIVE : string :=
  "Cannot convert object to primitive value".

(** The text of an array element inside [join], or the message of the
    [TypeError] it throws (left).  [null] gives the empty string, a
    number its [String(x)], an array its elements joined with commas.
    An object prints as [[object Object]] through the inherited
    [toString]; when it has an own member [toString], which is never a
    function in a value read from JSON, the conversion finds no method
    that yields a primitive and throws. *)
Fixpoint element_text (v : json) : string + string :=
  match v with
  | JNull => inr EmptyString
  | JBool true => inr "true"
  | JBool false => inr "false"
  | JNumber n => inr (Binary64.to_string n)
  | JString s => inr s
  | JArray elems =>
      (fix commas (l : list json) : string + string :=
         match l with
         | [] => inr EmptyString
         | [x] => element_text x
         | x :: rest =>
             match element_text x, commas rest with
             | inr t, inr ts => inr (t ++ "," ++ ts)
             | inl e, _ => inl e
             | _, inl e => inl e
             end
         end) elems
  | JObject members =>
      match lookup "toString" members with
      | Some _ => inl NOT_PRIMITIVE
      | None => inr "[object Object]"
      end
  end.

(** The texts of the elements, left to right, up to the first that
    throws. *)
Fixpoint element_texts (elems : list json) : string + list string :=
  match elems with
  | [] => inr []
  | x :: rest =>
      match element_text x with
      | inl e => inl e
      | inr t =>
          match element_texts rest with
          | inl e => inl e
          | inr ts => inr (t :: ts)
          end
      end
  end.

(** [elems.join(sep)] *)
Definition join_values (sep : string) (elems : list json) : string + string :=
  match element_texts elems with
  | inl e => inl e
  | inr ts => inr (JSString.join sep ts)
  end.

(** [item.k] on a value other than [null]; [None] is [undefined].
    Only an object read from JSON has own properties of these names. *)
Definition prop (item : json) (k : string) : cell :=
  match item with
  | JObject members => lookup k members
  | _ => None
  end.

Definition newline : string := String (ascii_of_nat 10) EmptyString.

(** [Array.isArray(c) ? c.join("\n") : c] *)
Definition content_cell (c : cell) : string + cell :=
  match c with
  | Some (JArray l) =>
      match join_values newline l with
      | inl e => inl e
      | inr t => inr (Some (JString t))
      end
  | other => inr other
  end.

(** [Array.isArray(g) && g.length > 0 ? g.join("\n") : "Not applicable"] *)
Definition staticGk_cell (g : cell) : string + cell :=
  match g with
  | Some (JArray (x :: l)) =>
      match join_values newline (x :: l) with
      | inl e => inl e
      | inr t => inr (Some (JString t))
      end
  | _ => inr (Some (JString "Not applicable"))
  end.

(** The arrow function of [data.map]: the six cells of one row, or the
    message of the [TypeError] thrown on the way (left).  The first
    property read, [item.title], throws when the item is [null]; the two
    joins come after the four plain cells, [content] before
    [staticGk]. *)
Definition row_of (item : json) : string + list cell :=
  match item with
  | JNull => inl "Cannot read properties of null (reading 'title')"
  | _ =>
      match content_cell (prop item "content") with
      | inl e => inl e
      | inr c =>
          match staticGk_cell (prop item "staticGk") with
          | inl e => inl e
          | inr g =>
              inr [ prop item "title"; prop item "subTitle";
                    prop item "date"; prop item "headline"; c; g ]
          end
      end
  end.

(** [printable v]: [join] can turn the element [v] into text, that is,
    no object with a member [toString] occurs in [v] or in the arrays
    nested in it. *)
Fixpoint printable (v : json) : bool :=
  match v with
  | JArray elems => forallb printable elems
  | JObject members =>
      match lookup "toString" members with
      | Some _ => false
      | None => true
      end
  | _ => true
  end.

(** A cell that is not an array is not joined; an array needs every
    element printable. *)
Definition joins (c : cell) : bool :=
  match c with
  | Some (JArray l) => forallb printable l
  | _ => true
  end.

(** The two messages a failing row can throw. *)
Definition row_failure (msg : string) : Prop :=
  msg = "Cannot read properties of null (reading 'title')"
  \/ msg = "Cannot convert object to primitive value".

(** The items of which the arrow function makes a row. *)
Definition row_ok (item : json) : bool :=
  match item with
  | JNull => false
  | _ => joins (prop item "content") && joins (prop item "staticGk")
  end.

Fixpoint rows_of (items : list json) : string + list (list cell) :=
  match items with
  | [] => inr []
  | item :: rest =>
      match row_of item with
      | inl e => inl e
      | inr r =>
          match rows_of rest with
          | inl e => inl e
          | inr rs => inr (r :: rs)
          end
      end
  end.

(** [data.map(...)]: a [TypeError] unless [data] is an array. *)
Definition map_rows (data : json) : string + list (list cell) :=
  match data with
  | JArray items => rows_of items
  | _ => inl "data.map is not a function"
  end.

Definition json_error (msg : string) : json := JObject [("error", JString msg)].
Definition json_success : json := JObject [("success", JBool true)].

(** [error.message || "Failed to update sheet"] *)
Definition failure (message : option string) : response :=
  {| status := 500;
     body := json_error (or_else message "Failed to update sheet") |}.

Definition missing (v : option string) : bool :=
  match v with Some (String _ _) => false | _ => true end.

(** The handler of [POST /api/sheets/update]. *)
Definition sheets_update (e : env) (api : sheets_api) (req : http_request)
  : response * list event :=
  match session req with
  | None => ({| status := 401; body := json_error "Unauthorized" |}, [])
  | Some sess =>
  match tokens sess with
  | None => ({| status := 401; body := json_error "Unauthorized" |}, [])
  | Some toks =>
      if missing (SPREADSHEET_ID e) then
        ({| status := 500;
            body := json_error "SPREADSHEET_ID is not configured on server" |},
         [])
      else
        match body_data req with
        | None => ({| status := 400; body := json_error "Missing data" |}, [])
        | Some data =>
          if negb (truthy data) then
            ({| status := 400; body := json_error "Missing data" |}, [])
          else
            match map_rows data with
            | inl msg =>
                (failure (Some msg),
                 [EvSetCredentials toks;
                  EvConsoleError "Error updating sheet:"])
            | inr vals =>
                let call :=
                  {| spreadsheetId := or_else (SPREADSHEET_ID e) EmptyString;
                     range := "Current Affairs!A:F";
                     valueInputOption := "USER_ENTERED";
                     values := vals |} in
                match api call with
                | None =>
                    ({| status := 200; body := json_success |},
                     [EvSetCredentials toks; EvAppend call])
                | Some message =>
                    (failure message,
                     [EvSetCredentials toks; EvAppend call;
                      EvConsoleError "Error updating sheet:"])
                end
            end
        end
  end
  end.

(** The append calls a run has issued. *)
Fixpoint appended (evs : list event) : list append_request :=
  match evs with
  | [] => []
  | EvAppend r :: rest => r :: appended rest
  | _ :: rest => appended rest
  end.

(** A [NewsItem] as it arrives in the request body. *)
Definition json_of_item (n : Gemini.NewsItem) : json :=
  JObject
    [ ("title", JString (Gemini.title n));
      ("subTitle", JString (Gemini.subTitle n));
      ("date", JString (Gemini.date n));
      ("headline", JString (Gemini.headline n));
      ("content", JArray (map JString (Gemini.content n)));
      ("staticGk", JArray (map JString (Gemini.staticGk n))) ].

(** [!(!req.session || !req.session.tokens)] *)
Definition authorized (req : http_request) : bool :=
  match session req with
  | Some sess => match tokens sess with Some _ => true | None => false end
  | None => false
  end.

(** The row of a [NewsItem] in the words of the specification: section,
    subsection, date, headline, the body points joined by newline, the
    background facts joined by newline or, when there are none, the
    text "Not applicable". *)
Definition sheet_row (n : Gemini.NewsItem) : list cell :=
  map (fun s => Some (JString s))
    [ Gemini.title n; Gemini.subTitle n; Gemini.date n; Gemini.headline n;
      JSString.join newline (Gemini.content n);
      match Gemini.staticGk n with
      | [] => "Not applicable"
      | gks => JSString.join newline gks
      end ].

Definition sample_items : list Gemini.NewsItem :=
  [ {| Gemini.title := "SPORTS"; Gemini.subTitle := "Winners";
       Gemini.date := "18 February 2026"; Gemini.headline := "H1";
       Gemini.content := ["p1"; "p2"]; Gemini.staticGk := [] |};
    {| Gemini.title := "DEFENCE"; Gemini.subTitle := "Missiles";
       Gemini.date := "19 February 2026"; Gemini.headline := "H2";
       Gemini.content := ["q1"]; Gemini.staticGk := ["g1"; "g2"] |} ].

(** The first item of a list; an item of empty texts for the empty
    list. *)
Definition hd_item (l : list Gemini.NewsItem) : Gemini.NewsItem :=
  hd {| Gemini.title := EmptyString; Gemini.subTitle := EmptyString;
        Gemini.date := EmptyString; Gemini.headline := EmptyString;
        Gemini.content := []; Gemini.staticGk := [] |} l.

Definition signed_in : session_data :=
  {| tokens := Some {| access_token := Some "ya29";
                       refresh_token := None |} |}.

Definition configured : env := {| SPREADSHEET_ID := Some "sheet-1" |}.

Definition accepting : sheets_api := fun _ => None.

End Server.
(* ===================================================================== *)
(** * The export transformations ([handleDownloadHtml],                   *)
(**   [handleDownloadExcel])                                              *)
(* ===================================================================== *)

Module Exports.
Import JSString.
Import Gemini.

(** The two [new Date()] readings of a handler, as the strings the
    handler gets from them: [toLocaleDateString('en-GB', ...)] of the
    first, [toISOString()] of the second. *)
Record clock : Type := { localeDate : string; isoString : string }.

(** [new Date().toISOString().split('T')[0]] *)
Definition iso_day (c : clock) : string :=
  hd EmptyString (split "T" (isoString c)).

(** The literal pieces of the two template strings, in order. *)

Definition item_0 : string := unq "
        <div class=^news-item^>
            <h2>".

Definition item_1 : string := unq " – ".

Definition item_2 : string := unq "</h2>
            <div class=^meta^ style=^text-align: left; margin-bottom: 16px;^>Date: ".

Definition item_3 : string := unq "</div>
            <p><strong>".

Definition item_4 : string := unq "</strong></p>
            <ul>
                ".

Definition item_5 : string := unq "
            </ul>
            <div class=^static-gk^>
                <strong>Static GK:</strong>
                ".

Definition item_6 : string := unq "
            </div>
        </div>
        <hr style=^border: 0; border-top: 1px dashed #e7e5e4; margin: 40px 0;^>
    ".

Definition page_0 : string := unq "
<!DOCTYPE html>
<html lang=^en^>
<head>
    <meta charset=^UTF-8^>
    <meta name=^viewport^ content=^width=device-width, initial-scale=1.0^>
    <title>Daily Digest - ".

Definition page_1 : string := unq "</title>
    <link href=^https://fonts.googleapis.com/css2?family=Cormorant+Garamond:ital,wght@0,300;0,400;0,500;0,600;0,700;1,300;1,400;1,500;1,600;1,700&family=Inter:wght@100..900&family=JetBrains+Mono:ital,wght@0,100..800;1,100..800&display=swap^ rel=^stylesheet^>
    <style>
        body {
            font-family: ^Inter^, sans-serif;
            background-color: #f5f5f0;
            color: #1c1917;
            margin: 0;
            padding: 40px 20px;
            line-height: 1.6;
        }
        .container {
            max-width: 800px;
            margin: 0 auto;
            background: white;
            padding: 60px;
            box-shadow: 0 25px 50px -12px rgba(0, 0, 0, 0.1);
            min-height: 297mm;
        }
        header {
            border-bottom: 4px solid #1c1917;
            padding-bottom: 32px;
            margin-bottom: 48px;
            display: flex;
            justify-content: space-between;
            align-items: flex-end;
        }
        h1 {
            font-family: ^Cormorant Garamond^, serif;
            font-size: 48px;
            font-weight: 900;
            text-transform: uppercase;
            letter-spacing: -0.05em;
            margin: 0;
            line-height: 0.9;
        }
        .subtitle {
            font-family: ^Cormorant Garamond^, serif;
            font-style: italic;
            font-size: 18px;
            color: #57534e;
            margin-top: 8px;
        }
        .meta {
            text-align: right;
            font-family: ^JetBrains Mono^, monospace;
            font-size: 12px;
            color: #a8a29e;
            text-transform: uppercase;
            letter-spacing: 0.1em;
        }
        .content {
            font-family: ^Inter^, sans-serif;
        }
        .content h2 {
            font-family: ^Cormorant Garamond^, serif;
            font-weight: bold;
            color: #1c1917;
            margin-bottom: 16px;
            margin-top: 32px;
            border-bottom: 1px solid #f5f5f4;
            padding-bottom: 8px;
        }
        .content p {
            margin-bottom: 16px;
            color: #292524;
        }
        .content ul {
            list-style: none;
            padding-left: 0;
            margin-bottom: 24px;
        }
        .content li {
            position: relative;
            padding-left: 24px;
            margin-bottom: 8px;
            color: #44403c;
        }
        .content li::before {
            content: ^•^;
            position: absolute;
            left: 0;
            color: #a8a29e;
            font-weight: bold;
        }
        .static-gk {
            background: #f9f8f6;
            padding: 16px;
            border-radius: 8px;
            margin-top: 16px;
        }
        footer {
            margin-top: 80px;
            padding-top: 32px;
            border-top: 1px solid #e7e5e4;
            text-align: center;
            font-family: ^Cormorant Garamond^, serif;
            font-style: italic;
            color: #a8a29e;
        }
        @media print {
            body { background: white; padding: 0; }
            .container { box-shadow: none; padding: 0; width: 100%; }
        }
    </style>
</head>
<body>
    <div class=^container^>
        <header>
            <div>
                <h1>The Daily Digest</h1>
                <div class=^subtitle^>Curated Current Affairs for Competitive Excellence</div>
            </div>
            <div class=^meta^>
                Edition: ".

Definition page_2 : string := unq "
            </div>
        </header>
        <div class=^content^>
            ".

Definition page_3 : string := unq "
        </div>
        <footer>
            End of Daily Digest. Success follows consistency.
        </footer>
    </div>
</body>
</html>
    ".

(** [`<li>${point}</li>`] *)
Definition li (point : string) : string := "<li>" ++ point ++ "</li>".

(** The template of one item. *)
Definition item_html (item : NewsItem) : string :=
  item_0 ++ title item ++ item_1 ++ subTitle item ++ item_2 ++ date item
    ++ item_3 ++ headline item ++ item_4
    ++ join EmptyString (map li (content item)) ++ item_5
    ++ match staticGk item with
       | [] => "Not applicable"
       | gks => "<ul>" ++ join EmptyString (map li gks) ++ "</ul>"
       end
    ++ item_6.

Definition contentHtml (result : list NewsItem) : string :=
  join EmptyString (map item_html result).

Definition htmlContent (dateStr : string) (result : list NewsItem) : string :=
  page_0 ++ dateStr ++ page_1 ++ dateStr ++ page_2 ++ contentHtml result
    ++ page_3.

(** The file the browser is made to save: [link.download] and the
    [Blob] behind [link.href]. *)
Record download : Type :=
  { fileName : string; blobType : string; blob : string }.

(** [result] is the component state, [None] for [null]. *)
Definition handleDownloadHtml (c : clock) (result : option (list NewsItem))
  : option download :=
  match result with
  | None => None
  | Some items =>
      Some {| fileName := "Daily_Digest_" ++ iso_day c ++ ".html";
              blobType := "text/html";
              blob := htmlContent (localeDate c) items |}
  end.

(** One object of [data]: its keys and values in order. *)
Definition excel_row (item : NewsItem) : list (string * string) :=
  [ ("Section", title item);
    ("Sub-Section", subTitle item);
    ("Date", date item);
    ("Headline", headline item);
    ("Content", join Server.newline (content item));
    ("Static GK",
     match staticGk item with
     | [] => "Not applicable"
     | gks => join Server.newline gks
     end) ].

(** The worksheet handed to the XLSX library: the argument of
    [json_to_sheet] and the column widths stored under [!cols]. *)
Record worksheet : Type :=
  { json_to_sheet : list (list (string * string)); cols : list Z }.

(** The workbook: its sheets by name. *)
Definition workbook : Type := list (string * worksheet).

Definition wscols : list Z := [30; 30; 20; 40; 60; 40]%Z.

(** The arguments of [XLSX.writeFile]. *)
Definition handleDownloadExcel (c : clock) (result : option (list NewsItem))
  : option (workbook * string) :=
  match result with
  | None => None
  | Some items =>
      let ws := {| json_to_sheet := map excel_row items; cols := wscols |} in
      Some ([("Current Affairs", ws)],
            "Daily_Digest_" ++ iso_day c ++ ".xlsx")
  end.

End Exports.

(* ===================================================================== *)
(** * The authorization routes ([server.ts])                              *)
(* ===================================================================== *)

Module Auth.
Import JSString JSON Server.

(** The session a request comes with.  The session middleware gives
    every request a session object; a new session and the one that
    follows a destroyed session have no [tokens]. *)
Definition fresh : session_data := {| tokens := None |}.

(** [oauth2Client.getToken(code)]: the tokens, or [None] when the
    exchange is rejected.  [code] is [req.query.code], [None] when the
    query has none. *)
Definition token_exchange : Type := option string -> option credentials.

(** A response with a text body ([res.send]). *)
Record text_response : Type := { text_status : Z; text_body : string }.

Definition CALLBACK_PAGE : string := "
        <html>
          <body>
            <script>
              if (window.opener) {
                window.opener.postMessage({ type: 'OAUTH_AUTH_SUCCESS' }, '*');
                window.close();
              } else {
                window.location.href = '/';
              }
            </script>
            <p>Authentication successful. This window should close automatically.</p>
          </body>
        </html>
      ".

(** [GET /api/auth/status]: [{ connected: !!req.session?.tokens }] *)
Definition connected (sess : option session_data) : bool :=
  match sess with
  | Some s => match tokens s with Some _ => true | None => false end
  | None => false
  end.

Definition auth_status (sess : option session_data) : response :=
  {| status := 200; body := JObject [("connected", JBool (connected sess))] |}.

(** [POST /api/auth/logout]: the session is destroyed. *)
Definition auth_logout (sess : session_data) : response * session_data :=
  ({| status := 200; body := json_success |}, fresh).

(** [GET /auth/callback] *)
Definition auth_callback (getToken : token_exchange) (code : option string)
    (sess : session_data) : text_response * session_data :=
  match getToken code with
  | Some toks =>
      ({| text_status := 200; text_body := CALLBACK_PAGE |},
       {| tokens := Some toks |})
  | None =>
      ({| text_status := 500; text_body := "Authentication failed" |}, sess)
  end.

(** The requests of one browser session, and the server handling them
    one after the other. *)
Inductive call : Type :=
| Callback (code : option string)
| Status
| Logout
| Update (data : option json).

(** One request: the session after it and what the append route did
    ([[]] for the other routes). *)
Definition serve (e : env) (api : sheets_api) (getToken : token_exchange)
    (sess : session_data) (c : call) : session_data * list event :=
  match c with
  | Callback code => (snd (auth_callback getToken code sess), [])
  | Status => (sess, [])
  | Logout => (snd (auth_logout sess), [])
  | Update data =>
      (sess,
       snd (sheets_update e api {| session := Some sess; body_data := data |}))
  end.

Fixpoint serve_all (e : env) (api : sheets_api) (getToken : token_exchange)
    (sess : session_data) (cs : list call) : session_data * list event :=
  match cs with
  | [] => (sess, [])
  | c :: rest =>
      let (sess', evs) := serve e api getToken sess c in
      let (sess'', evs') := serve_all e api getToken sess' rest in
      (sess'', (evs ++ evs')%list)
  end.

(** The tokens the OAuth exchange hands out for [code]. *)
Definition issued (getToken : token_exchange) (t : credentials) : Prop :=
  exists code, getToken code = Some t.

(** The tokens of a session are tokens the exchange has handed out. *)
Definition session_ok (getToken : token_exchange) (sess : session_data)
  : Prop :=
  forall t, tokens sess = Some t -> issued getToken t.

(** An exchange that accepts the one code [good]. *)
Definition one_code (good : string) (t : credentials) : token_exchange :=
  fun code =>
    match code with
    | Some c => if String.eqb c good then Some t else None
    | None => None
    end.

Definition sample_tokens : credentials :=
  {| access_token := Some "ya29"; refresh_token := Some "1//0g" |}.

End Auth.

(* ===================================================================== *)
(** * The upload queue of the [App] component                             *)
(* ===================================================================== *)

Module App.
Import JSString.

(** [interface UploadedFile] *)
Record UploadedFile : Type :=
  { id : string; name : string; data : string; mimeType : string }.

(** A [File] of the file input: its [name] and its [type]. *)
Record File : Type := { file_name : string; file_type : string }.

(** The state of the component. *)
Record state : Type :=
  { files : list UploadedFile;
    isProcessing : bool;
    result : option (list Gemini.NewsItem);
    error : option string;
    isGoogleConnected : bool;
    isUpdatingSheet : bool }.

Definition initial : state :=
  {| files := []; isProcessing := false; result := None; error := None;
     isGoogleConnected := false; isUpdatingSheet := false |}.

Definition setFiles (f : list UploadedFile -> list UploadedFile) (st : state)
  : state :=
  {| files := f (files st); isProcessing := isProcessing st;
     result := result st; error := error st;
     isGoogleConnected := isGoogleConnected st;
     isUpdatingSheet := isUpdatingSheet st |}.

Definition setError (e : option string) (st : state) : state :=
  {| files := files st; isProcessing := isProcessing st;
     result := result st; error := e;
     isGoogleConnected := isGoogleConnected st;
     isUpdatingSheet := isUpdatingSheet st |}.

Definition setIsGoogleConnected (b : bool) (st : state) : state :=
  {| files := files st; isProcessing := isProcessing st;
     result := result st; error := error st;
     isGoogleConnected := b;
     isUpdatingSheet := isUpdatingSheet st |}.

Definition PDF : string := "application/pdf".

(** The callback of [forEach] in [handleFileChange]: a file of another
    type sets the error and is skipped, a PDF gets a reader started. *)
Definition select_one (acc : state * list File) (f : File)
  : state * list File :=
  if negb (String.eqb (file_type f) PDF)
  then (setError (Some "Only PDF files are supported.") (fst acc), snd acc)
  else (fst acc, (snd acc ++ [f])%list).

Definition is_pdf (f : File) : bool := String.eqb (file_type f) PDF.

(** [handleFileChange]: the state after the handler and the files whose
    reading it has started.  [None] is [e.target.files] being [null]. *)
Definition handleFileChange (selectedFiles : option (list File)) (st : state)
  : state * list File :=
  match selectedFiles with
  | None => (st, [])
  | Some fs =>
      let acc := fold_left select_one fs (st, []) in
      (setError None (fst acc), snd acc)
  end.

(** [reader.onload] of the reader of [f]: [base64] is the data URL read,
    [rnd] the text of [Math.random().toString(36).substr(2, 9)]. *)
Definition reader_onload (f : File) (base64 rnd : string) (st : state)
  : state :=
  setFiles
    (fun prev =>
       (prev ++ [ {| id := rnd; name := file_name f; data := base64;
                     mimeType := file_type f |} ])%list)
    st.

(** [removeFile] *)
Definition removeFile (i : string) (st : state) : state :=
  setFiles (filter (fun f => negb (String.eqb (id f) i))) st.

(** The Clear All button: [setFiles([])]. *)
Definition clearAll (st : state) : state := setFiles (fun _ => []) st.

(** [s.endsWith(suffix)] *)
Fixpoint endsWith (s suffix : string) : bool :=
  if String.eqb s suffix then true
  else match s with
       | EmptyString => false
       | String _ s' => endsWith s' suffix
       end.

(** [handleMessage]: [origin] is [event.origin], [type] is
    [event.data?.type] when that is a string. *)
Definition handleMessage (origin : string) (type : option string)
    (st : state) : state :=
  if negb (endsWith origin ".run.app") && negb (includes origin "localhost")
  then st
  else
    match type with
    | Some t =>
        if String.eqb t "OAUTH_AUTH_SUCCESS"
        then setIsGoogleConnected true st else st
    | None => st
    end.

(** The component together with the readers that are at work. *)
Record world : Type := { ui : state; reading : list File }.

Inductive action : Type :=
| Select (selectedFiles : option (list File))
| Loaded (n : nat) (base64 rnd : string)   (* the n-th reader is done *)
| Remove (i : string)
| ClearAll
| Message (origin : string) (type : option string).

Fixpoint remove_nth {A : Type} (n : nat) (l : list A) : list A :=
  match n, l with
  | _, [] => []
  | O, _ :: rest => rest
  | S n', x :: rest => x :: remove_nth n' rest
  end.

Definition step (w : world) (a : action) : world :=
  match a with
  | Select sel =>
      let r := handleFileChange sel (ui w) in
      {| ui := fst r; reading := (reading w ++ snd r)%list |}
  | Loaded n base64 rnd =>
      match nth_error (reading w) n with
      | Some f =>
          {| ui := reader_onload f base64 rnd (ui w);
             reading := remove_nth n (reading w) |}
      | None => w
      end
  | Remove i => {| ui := removeFile i (ui w); reading := reading w |}
  | ClearAll => {| ui := clearAll (ui w); reading := reading w |}
  | Message origin type =>
      {| ui := handleMessage origin type (ui w); reading := reading w |}
  end.

Definition start : world := {| ui := initial; reading := [] |}.

(** What holds of the component at any time: the queue and the readers
    at work hold PDFs only. *)
Definition pdfs_only (w : world) : Prop :=
  Forall (fun f => mimeType f = PDF) (files (ui w))
  /\ Forall (fun f => file_type f = PDF) (reading w).

(** The argument [handleProcess] passes to [processCurrentAffairs]: the
    queue itself, of which the function reads [data] and [mimeType]. *)
Definition as_upload (f : UploadedFile) : Gemini.uploaded :=
  {| Gemini.data := data f; Gemini.mimeType := mimeType f |}.

Definition request_of_queue (st : state) : Gemini.request :=
  Gemini.requestConfig (map as_upload (files st)).

(** The media types of the documents of a request. *)
Fixpoint inline_mimes (ps : list Gemini.part) : list string :=
  match ps with
  | [] => []
  | Gemini.InlineData _ m :: rest => m :: inline_mimes rest
  | Gemini.TextPart _ :: rest => inline_mimes rest
  end.

End App.

(* ===================================================================== *)
(** * [JSON.parse] never runs out of fuel                                 *)
(* ===================================================================== *)

Section ParserFuel.
Import JSString JSON.

Lemma skip_ws_length (s : string) :
  String.length (skip_ws s) <= String.length s.
Proof.
  induction s as [|c s IH]; simpl; [lia|].
  destruct (is_ws c); simpl; lia.
Qed.

Lemma span_digits_length (s : string) :
  String.length (snd (span_digits s)) <= String.length s.
Proof.
  induction s as [|c s IH]; simpl; [lia|].
  destruct (is_digit c); simpl; [|lia].
  destruct (span_digits s) as [ds r]. simpl in *. lia.
Qed.

Lemma parse_hex4_length (s r : string) (u : N) :
  parse_hex4 s = Some (u, r) -> String.length r < String.length s.
Proof.
  unfold parse_hex4.
  destruct s as [|a [|b [|c [|d t]]]]; try discriminate.
  destruct (hex_val a), (hex_val b), (hex_val c), (hex_val d);
    try discriminate.
  intro H. injection H as _ <-. simpl. lia.
Qed.

Lemma unicode_escape_length (u : N) (r : string) :
  String.length (snd (unicode_escape u r)) <= String.length r.
Proof.
  unfold unicode_escape.
  destruct (is_high u); [|simpl; lia].
  destruct r as [|b [|c r']]; try (simpl; lia).
  destruct (Ascii.eqb b "\" && Ascii.eqb c "u"); [|simpl; lia].
  destruct (parse_hex4 r') as [[l r'']|] eqn:Hh; [|simpl; lia].
  destruct (is_low l); [|simpl; lia].
  apply parse_hex4_length in Hh. simpl. lia.
Qed.

Lemma parse_chars_length (f : nat) :
  forall (s t r : string),
    parse_chars f s = Ok t r -> String.length r < String.length s.
Proof.
  induction f as [|f IH]; intros s t r; simpl; [discriminate|].
  destruct s as [|c s']; [discriminate|].
  destruct (Ascii.eqb c dquote).
  { intro H. injection H as _ <-. simpl. lia. }
  destruct (Ascii.eqb c "\").
  - destruct s' as [|e s'']; [discriminate|].
    destruct (simple_escape e).
    + destruct (parse_chars f s'') as [t0 r0| |] eqn:Hc; try discriminate.
      simpl. intro H. injection H as _ <-.
      apply IH in Hc. simpl. lia.
    + destruct (Ascii.eqb e "u"); [|discriminate].
      destruct (parse_hex4 s'') as [[u r0]|] eqn:Hh; [|discriminate].
      destruct (parse_chars f (snd (unicode_escape u r0)))
        as [t0 r1| |] eqn:Hc; try discriminate.
      simpl. intro H. injection H as _ <-.
      apply IH in Hc. apply parse_hex4_length in Hh.
      pose proof (unicode_escape_length u r0). simpl. lia.
  - destruct (nat_of_ascii c <? 32)%nat; [discriminate|].
    destruct (parse_chars f s') as [t0 r0| |] eqn:Hc; try discriminate.
    simpl. intro H. injection H as _ <-.
    apply IH in Hc. simpl. lia.
Qed.

Lemma parse_chars_fuel (f : nat) :
  forall s : string, String.length s < f -> parse_chars f s <> OutOfFuel.
Proof.
  induction f as [|f IH]; intros s Hf; [lia|]. simpl.
  destruct s as [|c s']; [discriminate|]. simpl in Hf.
  destruct (Ascii.eqb c dquote); [discriminate|].
  destruct (Ascii.eqb c "\").
  - destruct s' as [|e s'']; [discriminate|]. simpl in Hf.
    destruct (simple_escape e).
    + specialize (IH s'' ltac:(lia)).
      destruct (parse_chars f s''); simpl; congruence.
    + destruct (Ascii.eqb e "u"); [|discriminate].
      destruct (parse_hex4 s'') as [[u r0]|] eqn:Hh; [|discriminate].
      apply parse_hex4_length in Hh.
      pose proof (unicode_escape_length u r0) as Hu.
      specialize (IH (snd (unicode_escape u r0)) ltac:(lia)).
      destruct (parse_chars f (snd (unicode_escape u r0))); simpl; congruence.
  - destruct (nat_of_ascii c <? 32)%nat; [discriminate|].
    specialize (IH s' ltac:(lia)).
    destruct (parse_chars f s'); simpl; congruence.
Qed.

Lemma parse_string_fuel (s : string) : parse_string s <> OutOfFuel.
Proof. apply parse_chars_fuel. lia. Qed.

Lemma parse_string_length (s t r : string) :
  parse_string s = Ok t r -> String.length r < String.length s.
Proof. apply parse_chars_length. Qed.

Lemma expect_length (w : string) :
  forall s r : string, expect w s = Some r -> String.length r <= String.length s.
Proof.
  induction w as [|a w IH]; intros s r; simpl.
  - intro H. injection H as <-. lia.
  - destruct s as [|b s']; [discriminate|].
    destruct (Ascii.eqb a b); [|discriminate].
    intro H. apply IH in H. simpl. lia.
Qed.

Lemma parse_int_part_length (s i r : string) :
  parse_int_part s = Some (i, r) -> String.length r < String.length s.
Proof.
  unfold parse_int_part. destruct s as [|c s']; [discriminate|].
  destruct (Ascii.eqb c "0").
  - intro H. injection H as _ <-. simpl. lia.
  - destruct (is_digit c); [|discriminate].
    pose proof (span_digits_length s') as Hl.
    destruct (span_digits s') as [ds r0]. simpl in Hl.
    intro H. injection H as _ <-. simpl. lia.
Qed.

Lemma parse_frac_length (s f r : string) :
  parse_frac s = Some (f, r) -> String.length r <= String.length s.
Proof.
  unfold parse_frac. destruct s as [|c s'].
  - intro H. injection H as _ <-. lia.
  - destruct (Ascii.eqb c ".").
    + pose proof (span_digits_length s') as Hl.
      destruct (span_digits s') as [[|d ds] r0]; [discriminate|].
      simpl in Hl. intro H. injection H as _ <-. simpl. lia.
    + intro H. injection H as _ <-. lia.
Qed.

Lemma parse_exp_length (s e r : string) :
  parse_exp s = Some (e, r) -> String.length r <= String.length s.
Proof.
  unfold parse_exp. destruct s as [|c s'].
  - intro H. injection H as _ <-. lia.
  - destruct (Ascii.eqb c "e" || Ascii.eqb c "E").
    + assert (Hsign : forall sign s'',
                (sign, s'') =
                  match s' with
                  | String g t =>
                      if Ascii.eqb g "+" || Ascii.eqb g "-"
                      then (String g EmptyString, t) else (EmptyString, s')
                  | EmptyString => (EmptyString, s')
                  end ->
                String.length s'' <= String.length s').
      { intros sign s'' Heq. destruct s' as [|g t].
        - injection Heq as _ ->. lia.
        - destruct (Ascii.eqb g "+" || Ascii.eqb g "-");
            injection Heq as _ ->; simpl; lia. }
      destruct (match s' with
                | String g t =>
                    if Ascii.eqb g "+" || Ascii.eqb g "-"
                    then (String g EmptyString, t) else (EmptyString, s')
                | EmptyString => (EmptyString, s')
                end) as [sign s''] eqn:Hs.
      specialize (Hsign sign s'' eq_refl).
      pose proof (span_digits_length s'') as Hl.
      destruct (span_digits s'') as [[|d ds] r0]; [discriminate|].
      simpl in Hl. intro H. injection H as _ <-. simpl. lia.
    + intro H. injection H as _ <-. lia.
Qed.

Lemma parse_number_length (s n r : string) :
  parse_number s = Some (n, r) -> String.length r < String.length s.
Proof.
  unfold parse_number.
  assert (Hsign : forall sign s0,
            (sign, s0) =
              match s with
              | String c t =>
                  if Ascii.eqb c "-" then ("-"%string, t) else (EmptyString, s)
              | EmptyString => (EmptyString, s)
              end ->
            String.length s0 <= String.length s).
  { intros sign s0 Heq. destruct s as [|c t].
    - injection Heq as _ ->. lia.
    - destruct (Ascii.eqb c "-"); injection Heq as _ ->; simpl; lia. }
  destruct (match s with
            | String c t =>
                if Ascii.eqb c "-" then ("-"%string, t) else (EmptyString, s)
            | EmptyString => (EmptyString, s)
            end) as [sign s0].
  specialize (Hsign sign s0 eq_refl).
  destruct (parse_int_part s0) as [[i s1]|] eqn:Hi; [|discriminate].
  destruct (parse_frac s1) as [[f s2]|] eqn:Hf; [|discriminate].
  destruct (parse_exp s2) as [[e s3]|] eqn:He; [|discriminate].
  intro H. injection H as _ <-.
  apply parse_int_part_length in Hi. apply parse_frac_length in Hf.
  apply parse_exp_length in He. lia.
Qed.

Ltac bind_case H :=
  match goal with
  | |- context [bind ?p _] =>
      destruct p as [? ?| |] eqn:H; cbn [bind]; try discriminate
  end.

Ltac ok_inv :=
  let H := fresh in intro H; injection H as _ <-.

Lemma parse_value_length (f : nat) :
  (forall s v r, parse_value f s = Ok v r ->
                 String.length r < String.length s)
  /\ (forall s l r, parse_elements f s = Ok l r ->
                    String.length r < String.length s)
  /\ (forall s ms r, parse_members f s = Ok ms r ->
                     String.length r < String.length s).
Proof.
  induction f as [|f (IHv & IHe & IHm)]; [repeat split; discriminate|].
  split; [|split].
  - intros s v r. cbn [parse_value].
    pose proof (skip_ws_length s) as Hs.
    destruct (skip_ws s) as [|c s']; [discriminate|]. simpl in Hs.
    destruct (Ascii.eqb c "[").
    { pose proof (skip_ws_length s') as Hs'.
      destruct (skip_ws s') as [|d r0]; [discriminate|]. simpl in Hs'.
      destruct (Ascii.eqb d "]"); [ok_inv; lia|].
      bind_case Hc. ok_inv. apply IHe in Hc. lia. }
    destruct (Ascii.eqb c "{").
    { pose proof (skip_ws_length s') as Hs'.
      destruct (skip_ws s') as [|d r0]; [discriminate|]. simpl in Hs'.
      destruct (Ascii.eqb d "}"); [ok_inv; lia|].
      bind_case Hc. ok_inv. apply IHm in Hc. lia. }
    destruct (Ascii.eqb c dquote).
    { bind_case Hc. ok_inv. apply parse_string_length in Hc. lia. }
    destruct (Ascii.eqb c "t").
    { destruct (expect "rue" s') as [r0|] eqn:He; [|discriminate].
      cbn. ok_inv. apply expect_length in He. lia. }
    destruct (Ascii.eqb c "f").
    { destruct (expect "alse" s') as [r0|] eqn:He; [|discriminate].
      cbn. ok_inv. apply expect_length in He. lia. }
    destruct (Ascii.eqb c "n").
    { destruct (expect "ull" s') as [r0|] eqn:He; [|discriminate].
      cbn. ok_inv. apply expect_length in He. lia. }
    destruct (parse_number (String c s')) as [[n r0]|] eqn:Hn; [|discriminate].
    cbn. ok_inv. apply parse_number_length in Hn. simpl in Hn. lia.
  - intros s l r. cbn [parse_elements].
    bind_case Hv. apply IHv in Hv.
    pose proof (skip_ws_length rest) as Hr.
    destruct (skip_ws rest) as [|d r']; [discriminate|]. simpl in Hr.
    destruct (Ascii.eqb d ",").
    { bind_case Hc. ok_inv. apply IHe in Hc. lia. }
    destruct (Ascii.eqb d "]"); [|discriminate]. ok_inv. lia.
  - intros s ms r. cbn [parse_members].
    pose proof (skip_ws_length s) as Hs.
    destruct (skip_ws s) as [|q s0]; [discriminate|]. simpl in Hs.
    destruct (Ascii.eqb q dquote); [|discriminate].
    bind_case Hk. apply parse_string_length in Hk.
    pose proof (skip_ws_length rest) as Hr.
    destruct (skip_ws rest) as [|colon s2]; [discriminate|]. simpl in Hr.
    destruct (Ascii.eqb colon ":"); [|discriminate].
    bind_case Hv. apply IHv in Hv.
    pose proof (skip_ws_length rest0) as Hr0.
    destruct (skip_ws rest0) as [|d r']; [discriminate|]. simpl in Hr0.
    destruct (Ascii.eqb d ",").
    { bind_case Hc. ok_inv. apply IHm in Hc. lia. }
    destruct (Ascii.eqb d "}"); [|discriminate]. ok_inv. lia.
Qed.

Lemma parse_value_fuel (f : nat) :
  (forall s, 2 * String.length s + 1 <= f -> parse_value f s <> OutOfFuel)
  /\ (forall s, 2 * String.length s + 2 <= f ->
                parse_elements f s <> OutOfFuel)
  /\ (forall s, 2 * String.length s + 2 <= f ->
                parse_members f s <> OutOfFuel).
Proof.
  induction f as [|f (IHv & IHe & IHm)]; [repeat split; intros; lia|].
  destruct (parse_value_length f) as (Lv & Le & Lm).
  split; [|split].
  - intros s Hf. cbn [parse_value].
    pose proof (skip_ws_length s) as Hs.
    destruct (skip_ws s) as [|c s']; [discriminate|]. simpl in Hs.
    destruct (Ascii.eqb c "[").
    { destruct (skip_ws s') as [|d r0]; [discriminate|].
      destruct (Ascii.eqb d "]"); [discriminate|].
      specialize (IHe s' ltac:(lia)).
      destruct (parse_elements f s'); cbn [bind]; congruence. }
    destruct (Ascii.eqb c "{").
    { destruct (skip_ws s') as [|d r0]; [discriminate|].
      destruct (Ascii.eqb d "}"); [discriminate|].
      specialize (IHm s' ltac:(lia)).
      destruct (parse_members f s'); cbn [bind]; congruence. }
    destruct (Ascii.eqb c dquote).
    { pose proof (parse_string_fuel s').
      destruct (parse_string s'); cbn [bind]; congruence. }
    destruct (Ascii.eqb c "t").
    { destruct (expect "rue" s'); cbn; discriminate. }
    destruct (Ascii.eqb c "f").
    { destruct (expect "alse" s'); cbn; discriminate. }
    destruct (Ascii.eqb c "n").
    { destruct (expect "ull" s'); cbn; discriminate. }
    destruct (parse_number (String c s')) as [[n r0]|]; cbn; discriminate.
  - intros s Hf. cbn [parse_elements].
    specialize (IHv s ltac:(lia)).
    destruct (parse_value f s) as [v r| |] eqn:Hv; cbn [bind];
      [|discriminate|congruence].
    apply Lv in Hv.
    pose proof (skip_ws_length r) as Hr.
    destruct (skip_ws r) as [|d r']; [discriminate|]. simpl in Hr.
    destruct (Ascii.eqb d ",").
    { specialize (IHe r' ltac:(lia)).
      destruct (parse_elements f r'); cbn [bind]; congruence. }
    destruct (Ascii.eqb d "]"); discriminate.
  - intros s Hf. cbn [parse_members].
    pose proof (skip_ws_length s) as Hs.
    destruct (skip_ws s) as [|q s0]; [discriminate|]. simpl in Hs.
    destruct (Ascii.eqb q dquote); [|discriminate].
    pose proof (parse_string_fuel s0).
    destruct (parse_string s0) as [k s1| |] eqn:Hk; cbn [bind];
      [|discriminate|congruence].
    apply parse_string_length in Hk.
    pose proof (skip_ws_length s1) as Hr.
    destruct (skip_ws s1) as [|colon s2]; [discriminate|]. simpl in Hr.
    destruct (Ascii.eqb colon ":"); [|discriminate].
    specialize (IHv s2 ltac:(lia)).
    destruct (parse_value f s2) as [v r| |] eqn:Hv; cbn [bind];
      [|discriminate|congruence].
    apply Lv in Hv.
    pose proof (skip_ws_length r) as Hr0.
    destruct (skip_ws r) as [|d r']; [discriminate|]. simpl in Hr0.
    destruct (Ascii.eqb d ",").
    { specialize (IHm r' ltac:(lia)).
      destruct (parse_members f r'); cbn [bind]; congruence. }
    destruct (Ascii.eqb d "}"); discriminate.
Qed.

(** The fuel [parse] starts with is never used up: [None] from [parse]
    is a syntax error of the text. *)
Lemma parse_fuel_suffices (text : string) :
  parse_value (fuel_for text) text <> OutOfFuel.
Proof.
  apply (proj1 (parse_value_fuel (fuel_for text))). unfold fuel_for. lia.
Qed.

Example parse_items : parse Gemini.sample_body = Some Gemini.sample_value.
Proof. vm_compute. reflexivity. Qed.

Example parse_default : parse (or_else None "[]") = Some (JArray []).
Proof. vm_compute. reflexivity. Qed.

Example parse_repeated_key :
  parse (unq "{^a^: 1, ^b^: [true, null], ^a^: -2.5e+3}")
  = Some (JObject [("a", JNumber "-2.5e+3");
                   ("b", JArray [JBool true; JNull])]).
Proof. vm_compute. reflexivity. Qed.

Example parse_escape :
  parse (unq "^\u0041\n\u00e9^")
  = Some (JString (String "A" (String (ascii_of_nat 10)
             (String (ascii_of_nat 195) (String (ascii_of_nat 169) ""))))).
Proof. vm_compute. reflexivity. Qed.

Example parse_index_keys_first :
  parse (unq "{^b^: 1, ^10^: 2, ^9^: 3, ^01^: 4, ^a^: 5}")
  = Some (JObject [("9", JNumber "3"); ("10", JNumber "2");
                   ("b", JNumber "1"); ("01", JNumber "4");
                   ("a", JNumber "5")]).
Proof. vm_compute. reflexivity. Qed.

Example parse_trailing_comma : parse "[1,]" = None.
Proof. vm_compute. reflexivity. Qed.

Example parse_leading_zero : parse "01" = None.
Proof. vm_compute. reflexivity. Qed.

Example parse_empty_text : parse "" = None.
Proof. vm_compute. reflexivity. Qed.

End ParserFuel.

(* ===================================================================== *)
(** * Properties of the request orchestrator                              *)
(* ===================================================================== *)

Local Open Scope list_scope.

Section Orchestrator.
Import JSString JSON Gemini.

Variable svc : service.
Variable req : request.

Lemma attempts_made_app (xs ys : list event) :
  attempts_made (xs ++ ys) = attempts_made xs + attempts_made ys.
Proof.
  induction xs as [|x xs IH]; simpl; [reflexivity|].
  destruct x; simpl; rewrite IH; reflexivity.
Qed.

Lemma delays_app (xs ys : list event) :
  delays (xs ++ ys) = (delays xs ++ delays ys)%list.
Proof.
  induction xs as [|x xs IH]; simpl; [reflexivity|].
  destruct x; simpl; rewrite IH; reflexivity.
Qed.

Lemma schedule_app (xs ys : list event) :
  schedule (xs ++ ys) = (schedule xs ++ schedule ys)%list.
Proof.
  induction xs as [|x xs IH]; simpl; [reflexivity|].
  destruct x; simpl; rewrite IH; reflexivity.
Qed.

Lemma total_delay_app (xs ys : list event) :
  total_delay (xs ++ ys) = (total_delay xs + total_delay ys)%Z.
Proof.
  unfold total_delay. rewrite delays_app.
  induction (delays xs) as [|d ds IH]; simpl; [reflexivity|lia].
Qed.

Lemma total_delay_retry (msg : string) (ms : Z) (later : list event) :
  total_delay (EvConsoleWarn msg :: EvSleep ms :: later)
  = (ms + total_delay later)%Z.
Proof. reflexivity. Qed.

(** One failed iteration that is retried. *)
Lemma attempt_retried (r a : nat) (last err : exn) :
  svc a = Rejected err -> is503 err = true -> a < 3 ->
  attempts_from svc req (S r) a last =
    (fst (attempts_from svc req r (S a) err),
     retry_prefix req a 1 ++ snd (attempts_from svc req r (S a) err)).
Proof.
  intros Hs H503 Ha.
  assert (Hlt : (a <? MAX_RETRIES - 1)%nat = true)
    by (apply Nat.ltb_lt; unfold MAX_RETRIES; simpl; lia).
  cbn [attempts_from]. rewrite Hs, H503, Hlt. cbn [andb].
  destruct (attempts_from svc req r (S a) err) as [c later].
  unfold retry_prefix. simpl. reflexivity.
Qed.

(** [k] failed iterations that are retried, by induction on [k]. *)
Lemma attempts_retried (k r : nat) :
  forall (a : nat) (last : exn),
    a + k <= 3 ->
    (forall i, a <= i < a + k -> transient (svc i) = true) ->
    exists last',
      attempts_from svc req (k + r) a last =
        (fst (attempts_from svc req r (a + k) last'),
         retry_prefix req a k ++ snd (attempts_from svc req r (a + k) last')).
Proof.
  induction k as [|k IH]; intros a last Hk Htr.
  - exists last. rewrite Nat.add_0_r. simpl.
    destruct (attempts_from svc req r a last); reflexivity.
  - assert (H0 : transient (svc a) = true) by (apply Htr; lia).
    unfold transient in H0. destruct (svc a) as [t|err] eqn:Hs; [discriminate|].
    destruct (IH (S a) err) as [last' Heq]; [lia | intros i Hi; apply Htr; lia |].
    exists last'.
    change (S k + r) with (S (k + r)).
    rewrite (attempt_retried (k + r) a last err Hs H0) by lia.
    rewrite Heq. simpl fst. simpl snd.
    replace (a + S k) with (S a + k) by lia.
    unfold retry_prefix. simpl. reflexivity.
Qed.

Lemma retry_prefix_attempts (k : nat) (tail : list event) :
  attempts_made (retry_prefix req 0 k ++ tail) = k + attempts_made tail.
Proof.
  rewrite attempts_made_app. f_equal.
  unfold retry_prefix. generalize 0 as a.
  induction k as [|k IH]; intro a; simpl; [reflexivity|].
  rewrite IH. reflexivity.
Qed.

Lemma retry_prefix_delays (k : nat) :
  k <= 3 -> delays (retry_prefix req 0 k) = firstn k BACKOFF_MS.
Proof.
  intro Hk.
  destruct k as [|[|[|[|k]]]]; try lia; reflexivity.
Qed.

Lemma retry_prefix_schedule (k : nat) :
  k <= 3 ->
  schedule (retry_prefix req 0 k) =
    flat_map (fun d => [Call; Wait d]) (firstn k BACKOFF_MS).
Proof.
  intro Hk.
  destruct k as [|[|[|[|k]]]]; try lia; reflexivity.
Qed.

(** The run after [k] retried failures, up to iteration [k]. *)
Lemma run_after_retries (k : nat) :
  k <= 3 ->
  (forall i, i < k -> transient (svc i) = true) ->
  exists last r,
    attempts_from svc req MAX_RETRIES 0 ExnUndefined =
      (fst (attempts_from svc req (S r) k last),
       retry_prefix req 0 k ++ snd (attempts_from svc req (S r) k last)).
Proof.
  intros Hk Htr.
  destruct (attempts_retried k (S (3 - k)) 0 ExnUndefined) as [last Heq].
  - lia.
  - intros i Hi. apply Htr. lia.
  - exists last, (3 - k).
    replace MAX_RETRIES with (k + S (3 - k)) by (unfold MAX_RETRIES; lia).
    exact Heq.
Qed.

Lemma format_failure_not_503 : is503 (new_Error FORMAT_FAILURE) = false.
Proof. vm_compute. reflexivity. Qed.

Lemma run_success (k : nat) (text : option string) (v : json) :
  k <= 3 ->
  (forall i, i < k -> transient (svc i) = true) ->
  svc k = Resolved text ->
  JSON.parse (or_else text "[]") = Some v ->
  attempts_from svc req MAX_RETRIES 0 ExnUndefined =
    (Return v, retry_prefix req 0 k ++ [EvGenerate req]).
Proof.
  intros Hk Htr Hs Hp.
  destruct (run_after_retries k Hk Htr) as (last & r & Heq).
  rewrite Heq. cbn [attempts_from]. rewrite Hs, Hp. reflexivity.
Qed.

Lemma run_format_failure (k : nat) (text : option string) :
  k <= 3 ->
  (forall i, i < k -> transient (svc i) = true) ->
  svc k = Resolved text ->
  JSON.parse (or_else text "[]") = None ->
  attempts_from svc req MAX_RETRIES 0 ExnUndefined =
    (Throw (new_Error FORMAT_FAILURE),
     retry_prefix req 0 k
       ++ [EvGenerate req;
           EvConsoleError "Failed to parse Gemini response as JSON"]).
Proof.
  intros Hk Htr Hs Hp.
  destruct (run_after_retries k Hk Htr) as (last & r & Heq).
  rewrite Heq. cbn [attempts_from]. rewrite Hs, Hp.
  rewrite format_failure_not_503. reflexivity.
Qed.

Lemma run_terminal (k : nat) (err : exn) :
  k <= 3 ->
  (forall i, i < k -> transient (svc i) = true) ->
  svc k = Rejected err ->
  is503 err = false \/ k = 3 ->
  attempts_from svc req MAX_RETRIES 0 ExnUndefined =
    (Throw err, retry_prefix req 0 k ++ [EvGenerate req]).
Proof.
  intros Hk Htr Hs Hend.
  destruct (run_after_retries k Hk Htr) as (last & r & Heq).
  rewrite Heq. cbn [attempts_from]. rewrite Hs.
  destruct Hend as [H503 | ->].
  - rewrite H503. reflexivity.
  - rewrite andb_false_r. reflexivity.
Qed.

Lemma total_delay_from (r : nat) :
  forall (a : nat) (last : exn),
    (0 <= total_delay (snd (attempts_from svc req r a last)) <= delay_left a)%Z.
Proof.
  assert (Hleft : forall a, (0 <= delay_left a)%Z)
    by (intros [|[|[|a]]]; simpl; lia).
  assert (Hretry : forall r', (forall a last,
            (0 <= total_delay (snd (attempts_from svc req r' a last))
             <= delay_left a)%Z) ->
          forall a err done, total_delay done = 0%Z ->
            (0 <= total_delay (snd (
               if is503 err && (a <? MAX_RETRIES - 1)%nat
               then let (c, later) := attempts_from svc req r' (S a) err in
                    (c, done ++ [EvConsoleWarn (retry_warning a);
                                 EvSleep (backoff a)] ++ later)
               else (Throw err, done))) <= delay_left a)%Z).
  { intros r' IH a err done Hdone.
    destruct (is503 err); cbn [andb].
    2:{ simpl. rewrite Hdone. specialize (Hleft a). lia. }
    destruct (a <? MAX_RETRIES - 1)%nat eqn:Hlt.
    2:{ simpl. rewrite Hdone. specialize (Hleft a). lia. }
    apply Nat.ltb_lt in Hlt. unfold MAX_RETRIES in Hlt. simpl in Hlt.
    specialize (IH (S a) err).
    destruct (attempts_from svc req r' (S a) err) as [c later].
    cbn [snd] in *. rewrite total_delay_app, Hdone.
    cbn [app]. rewrite total_delay_retry.
    destruct a as [|[|[|a]]]; try lia;
      [ change (backoff 0) with 5000%Z
      | change (backoff 1) with 10000%Z
      | change (backoff 2) with 20000%Z ];
      cbn [delay_left] in *; lia. }
  induction r as [|r IH]; intros a last.
  - simpl. specialize (Hleft a). unfold total_delay. simpl. lia.
  - cbn [attempts_from].
    destruct (svc a) as [text|err].
    + destruct (JSON.parse (or_else text "[]")).
      * simpl. specialize (Hleft a). unfold total_delay. simpl. lia.
      * apply (Hretry r IH). reflexivity.
    + apply (Hretry r IH). reflexivity.
Qed.

Example is503_by_status :
  is503 (ExnObject "ApiError" (PNumber 503) PUndefined PUndefined) = true.
Proof. reflexivity. Qed.

Example is503_by_message :
  is503 (new_Error "The model is currently experiencing High Demand.") = true.
Proof. vm_compute. reflexivity. Qed.

Example is503_string_status :
  is503 (ExnObject "ApiError" (PString "503") PUndefined PUndefined) = false.
Proof. vm_compute. reflexivity. Qed.

Example is503_undefined : is503 ExnUndefined = false.
Proof. vm_compute. reflexivity. Qed.

Example missing_key_makes_no_call :
  processCurrentAffairs {| GEMINI_API_KEY := None |} svc [sample_pdf]
  = (Throw (new_Error NO_API_KEY), []).
Proof. reflexivity. Qed.

Lemma is503_trigger_set (err : exn) :
  is503 err = true <-> in_trigger_set err.
Proof.
  unfold is503, in_trigger_set, is_number_503, string_and.
  rewrite !orb_true_iff. split.
  - intros [[[[H|H]|H]|H]|H].
    + left. destruct (get_status err); try discriminate.
      apply Z.eqb_eq in H. congruence.
    + right; left. destruct (get_code err); try discriminate.
      apply Z.eqb_eq in H. congruence.
    + right; right. destruct (get_message err); try discriminate. eauto.
    + right; right. destruct (get_message err); try discriminate.
      eexists; split; [reflexivity | auto].
    + right; right. destruct (get_message err); try discriminate.
      eexists; split; [reflexivity | auto].
  - intros [H|[H|(m & Hm & [H|[H|H]])]].
    + rewrite H. auto.
    + rewrite H. auto.
    + rewrite Hm. auto.
    + rewrite Hm. auto.
    + rewrite Hm. auto.
Qed.

End Orchestrator.

Section RetryContract.
Import JSString JSON Gemini.

(** C1.  After at most three transient failures in a row and then a
    success, [processCurrentAffairs] returns the parsed success value,
    has called the service once more than there were failures, and has
    waited 5 s, 10 s and 20 s, in this order, each wait between one
    call and the next.  (An API key is configured, so that the service
    is called at all.) *)
Theorem retry_until_success (e : env) (svc : service) (files : list uploaded)
    (k : nat) (text : option string) (v : json) :
  no_key e = false ->
  k <= 3 ->
  (forall i, i < k -> transient (svc i) = true) ->
  svc k = Resolved text ->
  JSON.parse (or_else text "[]") = Some v ->
  let (c, evs) := processCurrentAffairs e svc files in
  c = Return v
  /\ attempts_made evs = k + 1
  /\ delays evs = firstn k [5000; 10000; 20000]%Z
  /\ schedule evs =
       flat_map (fun d => [Call; Wait d]) (firstn k [5000; 10000; 20000]%Z)
         ++ [Call].
Proof.
  intros Hkey Hk Htr Hs Hp. unfold processCurrentAffairs. rewrite Hkey.
  rewrite (run_success svc _ k text v Hk Htr Hs Hp).
  split; [reflexivity|]. split; [|split].
  - rewrite retry_prefix_attempts. reflexivity.
  - rewrite delays_app, retry_prefix_delays by exact Hk.
    apply app_nil_r.
  - rewrite schedule_app, retry_prefix_schedule by exact Hk. reflexivity.
Qed.

Lemma retry_until_success_witness :
  let (c, evs) :=
    processCurrentAffairs with_key
      (scripted [overloaded; overloaded] (Resolved (Some sample_body)))
      [sample_pdf] in
  c = Return sample_value
  /\ attempts_made evs = 2 + 1
  /\ delays evs = firstn 2 [5000; 10000; 20000]%Z
  /\ schedule evs =
       flat_map (fun d => [Call; Wait d]) (firstn 2 [5000; 10000; 20000]%Z)
         ++ [Call].
Proof.
  apply (retry_until_success with_key
           (scripted [overloaded; overloaded] (Resolved (Some sample_body)))
           [sample_pdf] 2 (Some sample_body) sample_value).
  - reflexivity.
  - lia.
  - intros [|[|i]] Hi; [reflexivity | reflexivity | lia].
  - reflexivity.
  - vm_compute. reflexivity.
Defined.

(** C2.  After four transient failures in a row the service has been
    called exactly four times, the fourth error is thrown to the
    caller, and the last thing the loop did is the fourth call: no
    wait follows it and no fifth call is made. *)
Theorem four_failures_are_terminal (e : env) (svc : service)
    (files : list uploaded) :
  no_key e = false ->
  (forall i, i < 4 -> transient (svc i) = true) ->
  exists err,
    svc 3 = Rejected err
    /\ let (c, evs) := processCurrentAffairs e svc files in
       c = Throw err
       /\ attempts_made evs = 4
       /\ schedule evs =
            [Call; Wait 5000; Call; Wait 10000; Call; Wait 20000; Call]%Z.
Proof.
  intros Hkey Htr.
  assert (H3 : transient (svc 3) = true) by (apply Htr; lia).
  unfold transient in H3. destruct (svc 3) as [t|err] eqn:Hs; [discriminate|].
  exists err. split; [reflexivity|].
  unfold processCurrentAffairs. rewrite Hkey.
  rewrite (run_terminal svc _ 3 err);
    [ | lia | intros i Hi; apply Htr; lia | exact Hs | right; reflexivity ].
  split; [reflexivity|]. split.
  - rewrite retry_prefix_attempts. reflexivity.
  - rewrite schedule_app, retry_prefix_schedule by lia. reflexivity.
Qed.

Lemma four_failures_are_terminal_witness :
  exists err,
    scripted [] overloaded 3 = Rejected err
    /\ let (c, evs) :=
         processCurrentAffairs with_key (scripted [] overloaded)
           [sample_pdf] in
       c = Throw err
       /\ attempts_made evs = 4
       /\ schedule evs =
            [Call; Wait 5000; Call; Wait 10000; Call; Wait 20000; Call]%Z.
Proof.
  apply (four_failures_are_terminal with_key (scripted [] overloaded)
           [sample_pdf]).
  - reflexivity.
  - intros [|[|[|[|i]]]] Hi; try reflexivity; lia.
Defined.

(** C3, as the specification has it, fails: when every call meets a
    transient failure the waits add up to 35 seconds, which is more
    than 15. *)
Lemma backoff_exceeds_15s :
  let evs :=
    snd (processCurrentAffairs with_key (scripted [] overloaded)
           [sample_pdf]) in
  delays evs = [5000; 10000; 20000]%Z
  /\ total_delay evs = 35000%Z
  /\ ~ (total_delay evs <= 15000)%Z.
Proof.
  vm_compute. repeat split; try reflexivity. intro H. apply H. reflexivity.
Qed.

(** C3, amended.  In every run of [processCurrentAffairs] the waits
    between attempts add up to at most 35 seconds. *)
Theorem cumulative_backoff_bound (e : env) (svc : service)
    (files : list uploaded) :
  (0 <= total_delay (snd (processCurrentAffairs e svc files)) <= 35000)%Z.
Proof.
  unfold processCurrentAffairs. destruct (no_key e).
  - vm_compute. split; discriminate.
  - apply (total_delay_from svc (requestConfig files) MAX_RETRIES 0).
Qed.

(** C4.  When the first call is rejected with an error outside the
    trigger set (neither [status] nor [code] is 503, and the message
    contains neither "503" nor, in any letter case, "unavailable" or
    "high demand"), that one call is all that happens: the error is
    thrown to the caller and nothing is waited for. *)
Theorem non_transient_error_propagates (e : env) (svc : service)
    (files : list uploaded) (err : exn) :
  no_key e = false ->
  svc 0 = Rejected err ->
  ~ in_trigger_set err ->
  processCurrentAffairs e svc files
    = (Throw err, [EvGenerate (requestConfig files)])
  /\ attempts_made (snd (processCurrentAffairs e svc files)) = 1
  /\ delays (snd (processCurrentAffairs e svc files)) = [].
Proof.
  intros Hkey Hs Hout.
  assert (H503 : is503 err = false).
  { destruct (is503 err) eqn:H; [|reflexivity].
    exfalso. apply Hout. apply is503_trigger_set. exact H. }
  assert (Hrun : processCurrentAffairs e svc files
                 = (Throw err, [EvGenerate (requestConfig files)])).
  { unfold processCurrentAffairs. rewrite Hkey.
    rewrite (run_terminal svc _ 0 err);
      [ reflexivity | lia | intros i Hi; lia | exact Hs | left; exact H503 ]. }
  rewrite Hrun. split; [reflexivity|]. split; reflexivity.
Qed.

Lemma non_transient_error_propagates_witness :
  processCurrentAffairs with_key (scripted [] (Rejected bad_request))
      [sample_pdf]
    = (Throw bad_request, [EvGenerate (requestConfig [sample_pdf])])
  /\ attempts_made
       (snd (processCurrentAffairs with_key
               (scripted [] (Rejected bad_request)) [sample_pdf])) = 1
  /\ delays
       (snd (processCurrentAffairs with_key
               (scripted [] (Rejected bad_request)) [sample_pdf])) = [].
Proof.
  apply (non_transient_error_propagates with_key
           (scripted [] (Rejected bad_request)) [sample_pdf] bad_request).
  - reflexivity.
  - reflexivity.
  - intro H. apply is503_trigger_set in H. vm_compute in H. discriminate H.
Defined.

(** C5, as the specification has it, fails: the body [{}] is a JSON
    text that does not conform to the declared schema (an array is
    declared), and the function returns its value instead of
    throwing. *)
Lemma nonconforming_json_is_returned :
  valid_body "{}" = false
  /\ fst (processCurrentAffairs with_key
            (scripted [] (Resolved (Some "{}"))) [sample_pdf])
     = Return (JObject [])
  /\ fst (processCurrentAffairs with_key
            (scripted [] (Resolved (Some "{}"))) [sample_pdf])
     <> Throw (new_Error FORMAT_FAILURE).
Proof.
  repeat split; try (vm_compute; reflexivity).
  vm_compute. discriminate.
Qed.

(** C5, amended.  When the response text is not a JSON text, the
    function throws a plain [Error] with the message "Failed to process
      content into structured format." and not the [SyntaxError] of
    [JSON.parse]; no retry follows. *)
Theorem unparsable_body_is_format_failure (e : env) (svc : service)
    (files : list uploaded) (k : nat) (text : option string) :
  no_key e = false ->
  k <= 3 ->
  (forall i, i < k -> transient (svc i) = true) ->
  svc k = Resolved text ->
  JSON.parse (or_else text "[]") = None ->
  let (c, evs) := processCurrentAffairs e svc files in
  c = Throw (ExnObject "Error" PUndefined PUndefined
               (PString "Failed to process content into structured format."))
  /\ attempts_made evs = k + 1.
Proof.
  intros Hkey Hk Htr Hs Hp. unfold processCurrentAffairs. rewrite Hkey.
  rewrite (run_format_failure svc _ k text Hk Htr Hs Hp).
  split; [reflexivity|].
  rewrite retry_prefix_attempts. reflexivity.
Qed.

Lemma unparsable_body_is_format_failure_witness :
  let (c, evs) :=
    processCurrentAffairs with_key
      (scripted [overloaded] (Resolved (Some "<html>Bad Gateway</html>")))
      [sample_pdf] in
  c = Throw (ExnObject "Error" PUndefined PUndefined
               (PString "Failed to process content into structured format."))
  /\ attempts_made evs = 1 + 1.
Proof.
  apply (unparsable_body_is_format_failure with_key
           (scripted [overloaded]
              (Resolved (Some "<html>Bad Gateway</html>")))
           [sample_pdf] 1 (Some "<html>Bad Gateway</html>")).
  - reflexivity.
  - lia.
  - intros [|i] Hi; [reflexivity | lia].
  - reflexivity.
  - vm_compute. reflexivity.
Defined.

(** C6.  A response that parses to the empty array makes the function
    return the empty list, a normal completion and not a thrown
    error. *)
Theorem empty_array_is_success (e : env) (svc : service)
    (files : list uploaded) (k : nat) (text : option string) :
  no_key e = false ->
  k <= 3 ->
  (forall i, i < k -> transient (svc i) = true) ->
  svc k = Resolved text ->
  JSON.parse (or_else text "[]") = Some (JArray []) ->
  fst (processCurrentAffairs e svc files) = Return (JArray [])
  /\ forall err, fst (processCurrentAffairs e svc files) <> Throw err.
Proof.
  intros Hkey Hk Htr Hs Hp. unfold processCurrentAffairs. rewrite Hkey.
  rewrite (run_success svc _ k text (JArray []) Hk Htr Hs Hp).
  split; [reflexivity | intros err; discriminate].
Qed.

Lemma empty_array_is_success_witness :
  fst (processCurrentAffairs with_key (scripted [] (Resolved (Some " [ ] ")))
         [sample_pdf]) = Return (JArray [])
  /\ forall err,
       fst (processCurrentAffairs with_key
              (scripted [] (Resolved (Some " [ ] "))) [sample_pdf])
       <> Throw err.
Proof.
  apply (empty_array_is_success with_key
           (scripted [] (Resolved (Some " [ ] "))) [sample_pdf] 0
           (Some " [ ] ")).
  - reflexivity.
  - lia.
  - intros i Hi. lia.
  - reflexivity.
  - vm_compute. reflexivity.
Defined.

End RetryContract.

(* ===================================================================== *)
(** * The document payload                                                *)
(* ===================================================================== *)

Section Payload.
Import JSString JSON Gemini.

Lemma split_comma_unfold (s : string) :
  split "," s =
    before_comma s ::
      match after_first_comma s with
      | None => []
      | Some rest => split "," rest
      end.
Proof.
  induction s as [|c s IH]; simpl; [reflexivity|].
  destruct (Ascii.eqb c ","); [reflexivity|].
  rewrite IH. reflexivity.
Qed.

Lemma second_segment (s : string) :
  nth_error (split "," s) 1 =
    match after_first_comma s with
    | None => None
    | Some rest => Some (before_comma rest)
    end.
Proof.
  rewrite split_comma_unfold. simpl.
  destruct (after_first_comma s) as [rest|]; [|reflexivity].
  rewrite split_comma_unfold. reflexivity.
Qed.

Example payload_of_data_url :
  inline_payload (data sample_pdf) = "JVBERi0xLjQK"%string.
Proof. vm_compute. reflexivity. Qed.

Example payload_without_comma :
  inline_payload "JVBERi0xLjQK" = "JVBERi0xLjQK"%string.
Proof. vm_compute. reflexivity. Qed.

Example payload_comma_at_end :
  inline_payload "abc," = "abc,"%string.
Proof. vm_compute. reflexivity. Qed.

(** C10, as written, fails on a data string with two commas: the
    text after the first comma of [a,b,c] is [b,c], and the payload
    sent is [b]. *)
Lemma payload_stops_at_second_comma :
  after_first_comma "a,b,c" = Some "b,c"%string
  /\ inline_payload "a,b,c" = "b"%string
  /\ inline_payload "a,b,c" <> "b,c"%string.
Proof.
  repeat split. vm_compute. discriminate.
Qed.

(** C10, amended.  The payload sent for a data string is the text
    between its first comma and its second comma (or its end, when
    there is no second comma), provided the string has a comma and that
    text is not empty; otherwise it is the whole string. *)
Theorem inline_payload_spec (d : string) :
  inline_payload d =
    match after_first_comma d with
    | None => d
    | Some rest =>
        match before_comma rest with
        | EmptyString => d
        | String c seg => String c seg
        end
    end.
Proof.
  unfold inline_payload. rewrite second_segment.
  destruct (after_first_comma d) as [rest|]; [|reflexivity].
  simpl. destruct (before_comma rest); reflexivity.
Qed.

End Payload.

(* ===================================================================== *)
(** * Properties of the sheet-append endpoint                             *)
(* ===================================================================== *)

Section SheetAppend.
Import JSString JSON Server.

Lemma element_text_strings (l : list string) :
  element_texts (map JString l) = inr l.
Proof.
  induction l as [|x l IH]; [reflexivity|].
  cbn [map element_texts element_text]. rewrite IH. reflexivity.
Qed.

Lemma join_values_strings (sep : string) (l : list string) :
  join_values sep (map JString l) = inr (JSString.join sep l).
Proof. unfold join_values. rewrite element_text_strings. reflexivity. Qed.

Lemma row_of_item (n : Gemini.NewsItem) :
  row_of (json_of_item n) = inr (sheet_row n).
Proof.
  unfold row_of, json_of_item, sheet_row, prop.
  cbn -[join_values JSString.join newline].
  rewrite join_values_strings.
  destruct (Gemini.staticGk n) as [|g gs]; [reflexivity|].
  cbn -[join_values JSString.join newline].
  change (JString g :: map JString gs) with (map JString (g :: gs)).
  rewrite join_values_strings. reflexivity.
Qed.

Lemma rows_of_items (items : list Gemini.NewsItem) :
  rows_of (map json_of_item items) = inr (map sheet_row items).
Proof.
  induction items as [|n items IH]; [reflexivity|].
  cbn [map rows_of]. rewrite row_of_item, IH. reflexivity.
Qed.

Example null_item_fails :
  sheets_update configured accepting
    {| session := Some signed_in; body_data := Some (JArray [JNull]) |}
  = ({| status := 500;
        body := json_error
                  "Cannot read properties of null (reading 'title')" |},
     [EvSetCredentials {| access_token := Some "ya29";
                          refresh_token := None |};
      EvConsoleError "Error updating sheet:"]).
Proof. vm_compute. reflexivity. Qed.

Example missing_data :
  sheets_update configured accepting
    {| session := Some signed_in; body_data := None |}
  = ({| status := 400; body := json_error "Missing data" |}, []).
Proof. reflexivity. Qed.

Example missing_spreadsheet_id :
  sheets_update {| SPREADSHEET_ID := None |} accepting
    {| session := Some signed_in;
       body_data := Some (JArray (map json_of_item sample_items)) |}
  = ({| status := 500;
        body := json_error "SPREADSHEET_ID is not configured on server" |},
     []).
Proof. reflexivity. Qed.

(** C7.  With an authorization session (and the target spreadsheet
    configured), a submitted list of NewsItems leads to one append call
    whose values hold one row per item, each row being the six cells
    section, subsection, date, headline, body points joined by newline,
    and background facts joined by newline or "Not applicable". *)
Theorem append_one_row_per_item (e : env) (api : sheets_api)
    (req : http_request) (sess : session_data) (toks : credentials)
    (id : string) (items : list Gemini.NewsItem) :
  session req = Some sess ->
  tokens sess = Some toks ->
  SPREADSHEET_ID e = Some id ->
  id <> EmptyString ->
  body_data req = Some (JArray (map json_of_item items)) ->
  appended (snd (sheets_update e api req))
    = [ {| spreadsheetId := id;
           range := "Current Affairs!A:F";
           valueInputOption := "USER_ENTERED";
           values := map sheet_row items |} ]
  /\ length (map sheet_row items) = length items
  /\ Forall (fun row => length row = 6) (map sheet_row items).
Proof.
  intros Hsess Htok Hid Hne Hdata. split; [|split].
  - unfold sheets_update. rewrite Hsess, Htok, Hid, Hdata.
    destruct id as [|c id']; [contradiction|].
    cbn [missing truthy negb map_rows or_else].
    rewrite rows_of_items.
    destruct (api _); reflexivity.
  - apply length_map.
  - apply Forall_forall. intros row Hin.
    apply in_map_iff in Hin. destruct Hin as (n & <- & _). reflexivity.
Qed.

Lemma append_one_row_per_item_witness :
  appended
    (snd (sheets_update configured accepting
            {| session := Some signed_in;
               body_data := Some (JArray (map json_of_item sample_items)) |}))
    = [ {| spreadsheetId := "sheet-1";
           range := "Current Affairs!A:F";
           valueInputOption := "USER_ENTERED";
           values := map sheet_row sample_items |} ]
  /\ length (map sheet_row sample_items) = length sample_items
  /\ Forall (fun row => length row = 6) (map sheet_row sample_items).
Proof.
  apply (append_one_row_per_item configured accepting
           {| session := Some signed_in;
              body_data := Some (JArray (map json_of_item sample_items)) |}
           signed_in
           {| access_token := Some "ya29"; refresh_token := None |}
           "sheet-1" sample_items).
  - reflexivity.
  - reflexivity.
  - reflexivity.
  - discriminate.
  - reflexivity.
Defined.

(** C8.  Without an authorization session (no session, or a session
    without tokens) the endpoint answers 401 "Unauthorized" and has
    done nothing else: no credentials are set and no call reaches the
    spreadsheet service. *)
Theorem unauthorized_before_any_call (e : env) (api : sheets_api)
    (req : http_request) :
  authorized req = false ->
  sheets_update e api req
    = ({| status := 401; body := JObject [("error", JString "Unauthorized")] |},
       []).
Proof.
  unfold authorized, sheets_update. intro H.
  destruct (session req) as [sess|]; [|reflexivity].
  destruct (tokens sess); [discriminate|reflexivity].
Qed.

Lemma unauthorized_before_any_call_witness :
  sheets_update configured accepting
    {| session := Some {| tokens := None |};
       body_data := Some (JArray (map json_of_item sample_items)) |}
    = ({| status := 401; body := JObject [("error", JString "Unauthorized")] |},
       []).
Proof.
  apply (unauthorized_before_any_call configured accepting
           {| session := Some {| tokens := None |};
              body_data := Some (JArray (map json_of_item sample_items)) |}).
  reflexivity.
Defined.

End SheetAppend.

(* ===================================================================== *)
(** * Every run of the orchestrator                                       *)
(* ===================================================================== *)

Section Runs.
Import JSString JSON Gemini.

Lemma leading_transients_spec (svc : service) (n : nat) :
  forall a : nat,
    leading_transients svc a n <= n
    /\ (forall i, a <= i < a + leading_transients svc a n ->
                  transient (svc i) = true)
    /\ (leading_transients svc a n = n
        \/ transient (svc (a + leading_transients svc a n)) = false).
Proof.
  induction n as [|n IH]; intro a; simpl.
  - repeat split; [lia | intros i Hi; lia | left; reflexivity].
  - destruct (transient (svc a)) eqn:Ha.
    + destruct (IH (S a)) as (Hle & Hall & Hend).
      split; [lia|]. split.
      * intros i Hi. destruct (Nat.eq_dec i a) as [->|Hne]; [exact Ha|].
        apply Hall. lia.
      * destruct Hend as [Heq|Hstop]; [left; lia|].
        right. replace (a + S (leading_transients svc (S a) n))
          with (S a + leading_transients svc (S a) n) by lia.
        exact Hstop.
    + split; [lia|]. split; [intros i Hi; lia|].
      right. rewrite Nat.add_0_r. exact Ha.
Qed.

(** What the loop did and how it ended, for any service: the leading
    transient failures are retried, and the first other outcome (or the
    fourth call) ends the run. *)
Lemma run_shape (svc : service) (req : request) :
  let k := leading_transients svc 0 3 in
  exists (c : completion) (tail : list event),
    attempts_from svc req MAX_RETRIES 0 ExnUndefined
      = (c, retry_prefix req 0 k ++ EvGenerate req :: tail)
    /\ (tail = []
        \/ tail = [EvConsoleError "Failed to parse Gemini response as JSON"])
    /\ match c with
       | Return v =>
           exists text, svc k = Resolved text
                        /\ JSON.parse (or_else text "[]") = Some v
       | Throw err =>
           svc k = Rejected err
           \/ (err = new_Error FORMAT_FAILURE
               /\ exists text, svc k = Resolved text
                               /\ JSON.parse (or_else text "[]") = None)
       end.
Proof.
  intro k. destruct (leading_transients_spec svc 3 0) as (Hle & Hall & Hend).
  fold k in Hle, Hall, Hend. rewrite !Nat.add_0_l in Hend.
  assert (Htr : forall i, i < k -> transient (svc i) = true)
    by (intros i Hi; apply Hall; lia).
  destruct (svc k) as [text|err] eqn:Hs.
  - destruct (JSON.parse (or_else text "[]")) as [v|] eqn:Hp.
    + exists (Return v), [].
      rewrite (run_success svc req k text v Hle Htr Hs Hp).
      split; [reflexivity|]. split; [left; reflexivity|]. eauto.
    + exists (Throw (new_Error FORMAT_FAILURE)),
             [EvConsoleError "Failed to parse Gemini response as JSON"].
      rewrite (run_format_failure svc req k text Hle Htr Hs Hp).
      split; [reflexivity|]. split; [right; reflexivity|].
      right. split; [reflexivity|]. eauto.
  - exists (Throw err), [].
    rewrite (run_terminal svc req k err Hle Htr Hs).
    + split; [reflexivity|]. split; [left; reflexivity|]. left. reflexivity.
    + destruct Hend as [H3|Hstop]; [right; exact H3|].
      left. exact Hstop.
Qed.

Lemma requests_sent_app (xs ys : list event) :
  requests_sent (xs ++ ys) = requests_sent xs ++ requests_sent ys.
Proof.
  induction xs as [|x xs IH]; simpl; [reflexivity|].
  destruct x; simpl; rewrite IH; reflexivity.
Qed.

Lemma requests_sent_retry_prefix (req : request) (k : nat) :
  forall a, requests_sent (retry_prefix req a k) = repeat req k.
Proof.
  unfold retry_prefix.
  induction k as [|k IH]; intro a; simpl; [reflexivity|].
  rewrite IH. reflexivity.
Qed.

Lemma tail_is_silent (tail : list event) :
  tail = []
  \/ tail = [EvConsoleError "Failed to parse Gemini response as JSON"] ->
  attempts_made tail = 0 /\ delays tail = [] /\ requests_sent tail = [].
Proof. intros [-> | ->]; repeat split. Qed.

Lemma run_counts (e : env) (svc : service) (files : list uploaded) :
  no_key e = false ->
  attempts_made (snd (processCurrentAffairs e svc files))
    = S (leading_transients svc 0 3)
  /\ delays (snd (processCurrentAffairs e svc files))
     = firstn (leading_transients svc 0 3) BACKOFF_MS
  /\ requests_sent (snd (processCurrentAffairs e svc files))
     = repeat (requestConfig files) (S (leading_transients svc 0 3)).
Proof.
  intro Hkey. unfold processCurrentAffairs. rewrite Hkey.
  destruct (run_shape svc (requestConfig files)) as (c & tail & Hrun & Ht & _).
  destruct (tail_is_silent tail Ht) as (Ha & Hd & Hr).
  destruct (leading_transients_spec svc 3 0) as (Hle & _).
  rewrite Hrun. cbn [snd]. split; [|split].
  - rewrite retry_prefix_attempts. cbn [attempts_made]. rewrite Ha. lia.
  - rewrite delays_app, retry_prefix_delays by exact Hle.
    cbn [delays]. rewrite Hd. apply app_nil_r.
  - rewrite requests_sent_app, requests_sent_retry_prefix.
    cbn [requests_sent]. rewrite Hr.
    change (requestConfig files :: [])
      with (repeat (requestConfig files) 1).
    rewrite <- repeat_app. f_equal. lia.
Qed.

End Runs.

Section RunProperties.
Import JSString JSON Gemini.

(** X1.  Whatever the service does, a run with an API key calls it once
    more than the number of transient failures it meets in a row from the
    first call on (three of them at most are retried), and waits 5 s,
    10 s, 20 s after these failures, in this order. *)
Theorem calls_follow_leading_failures (e : env) (svc : service)
    (files : list uploaded) :
  no_key e = false ->
  attempts_made (snd (processCurrentAffairs e svc files))
    = S (leading_transients svc 0 3)
  /\ delays (snd (processCurrentAffairs e svc files))
     = firstn (leading_transients svc 0 3) [5000; 10000; 20000]%Z.
Proof.
  intro Hkey.
  destruct (run_counts e svc files Hkey) as (Ha & Hd & _).
  split; [exact Ha | exact Hd].
Qed.

Lemma calls_follow_leading_failures_witness :
  attempts_made
    (snd (processCurrentAffairs with_key
            (scripted [overloaded; overloaded] (Rejected bad_request))
            [sample_pdf]))
    = S (leading_transients
           (scripted [overloaded; overloaded] (Rejected bad_request)) 0 3)
  /\ delays
       (snd (processCurrentAffairs with_key
               (scripted [overloaded; overloaded] (Rejected bad_request))
               [sample_pdf]))
     = firstn
         (leading_transients
            (scripted [overloaded; overloaded] (Rejected bad_request)) 0 3)
         [5000; 10000; 20000]%Z.
Proof.
  apply (calls_follow_leading_failures with_key
           (scripted [overloaded; overloaded] (Rejected bad_request))
           [sample_pdf]).
  reflexivity.
Defined.

(** X2.  The service is called if and only if an API key is configured:
    a run makes no call exactly when the key is absent or empty. *)
Theorem service_called_iff_key (e : env) (svc : service)
    (files : list uploaded) :
  attempts_made (snd (processCurrentAffairs e svc files)) = 0
  <-> no_key e = true.
Proof.
  destruct (no_key e) eqn:Hkey.
  - unfold processCurrentAffairs. rewrite Hkey. simpl. tauto.
  - destruct (run_counts e svc files Hkey) as [Ha _].
    rewrite Ha. split; [lia | discriminate].
Qed.

(** X3.  A value thrown by [processCurrentAffairs] is the missing-key
    error, the format error, or a value that one of the first four calls
    of the service was rejected with.  In particular the closing
    [throw lastError] never throws the initial [undefined]. *)
Theorem thrown_value_provenance (e : env) (svc : service)
    (files : list uploaded) (err : exn) :
  fst (processCurrentAffairs e svc files) = Throw err ->
  err = new_Error NO_API_KEY
  \/ err = new_Error FORMAT_FAILURE
  \/ exists i, i < 4 /\ svc i = Rejected err.
Proof.
  unfold processCurrentAffairs. destruct (no_key e).
  - simpl. intro H. injection H as <-. left. reflexivity.
  - destruct (run_shape svc (requestConfig files)) as (c & tail & Hrun & _ & Hc).
    destruct (leading_transients_spec svc 3 0) as (Hle & _).
    rewrite Hrun. cbn [fst]. intros ->.
    destruct Hc as [Hrej | [Hfmt _]].
    + right; right. exists (leading_transients svc 0 3). split; [lia | exact Hrej].
    + right; left. exact Hfmt.
Qed.

Lemma thrown_value_provenance_witness :
  bad_request = new_Error NO_API_KEY
  \/ bad_request = new_Error FORMAT_FAILURE
  \/ exists i,
       i < 4
       /\ scripted [overloaded] (Rejected bad_request) i = Rejected bad_request.
Proof.
  apply (thrown_value_provenance with_key
           (scripted [overloaded] (Rejected bad_request)) [sample_pdf]).
  reflexivity.
Defined.

(** X4.  A value returned by [processCurrentAffairs] is the parse of the
    text of a response of the service (of ["[]"] when that text is empty
    or missing), namely of the first response after transient failures
    only; and an API key is configured. *)
Theorem returned_value_provenance (e : env) (svc : service)
    (files : list uploaded) (v : json) :
  fst (processCurrentAffairs e svc files) = Return v ->
  no_key e = false
  /\ exists i text,
       i < 4
       /\ (forall j, j < i -> transient (svc j) = true)
       /\ svc i = Resolved text
       /\ JSON.parse (or_else text "[]") = Some v.
Proof.
  unfold processCurrentAffairs. destruct (no_key e); [discriminate|].
  intro H. split; [reflexivity|].
  destruct (run_shape svc (requestConfig files)) as (c & tail & Hrun & _ & Hc).
  destruct (leading_transients_spec svc 3 0) as (Hle & Hall & _).
  rewrite Hrun in H. cbn [fst] in H. subst c.
  destruct Hc as (text & Hs & Hp).
  exists (leading_transients svc 0 3), text.
  split; [lia|]. split; [|split; assumption].
  intros j Hj. apply Hall. lia.
Qed.

Lemma returned_value_provenance_witness :
  no_key with_key = false
  /\ exists i text,
       i < 4
       /\ (forall j, j < i ->
            transient (scripted [overloaded] (Resolved (Some sample_body)) j)
            = true)
       /\ scripted [overloaded] (Resolved (Some sample_body)) i = Resolved text
       /\ JSON.parse (or_else text "[]") = Some sample_value.
Proof.
  apply (returned_value_provenance with_key
           (scripted [overloaded] (Resolved (Some sample_body))) [sample_pdf]).
  vm_compute. reflexivity.
Defined.

(** X5.  Every call of a run sends the same request, the one built from
    the files: the requests sent are as many copies of [requestConfig
    files] as calls were made. *)
Theorem every_call_sends_the_same_request (e : env) (svc : service)
    (files : list uploaded) :
  requests_sent (snd (processCurrentAffairs e svc files))
  = repeat (requestConfig files)
      (attempts_made (snd (processCurrentAffairs e svc files))).
Proof.
  destruct (no_key e) eqn:Hkey.
  - unfold processCurrentAffairs. rewrite Hkey. reflexivity.
  - destruct (run_counts e svc files Hkey) as (Ha & _ & Hr).
    rewrite Ha. exact Hr.
Qed.

End RunProperties.

(* ===================================================================== *)
(** * More on the document payload and on the retry trigger               *)
(* ===================================================================== *)

Section PayloadProperties.
Import JSString JSON Gemini.
Local Open Scope string_scope.

Lemma after_first_comma_app (a b : string) :
  after_first_comma a = None ->
  after_first_comma (a ++ b) = after_first_comma b.
Proof.
  induction a as [|c a IH]; simpl; [reflexivity|].
  destruct (Ascii.eqb c ","); [discriminate | exact IH].
Qed.

Lemma before_comma_all (s : string) :
  after_first_comma s = None -> before_comma s = s.
Proof.
  induction s as [|c s IH]; simpl; [reflexivity|].
  destruct (Ascii.eqb c ","); [discriminate|].
  intro H. rewrite (IH H). reflexivity.
Qed.

Lemma before_comma_has_no_comma (s : string) :
  after_first_comma (before_comma s) = None.
Proof.
  induction s as [|c s IH]; simpl; [reflexivity|].
  destruct (Ascii.eqb c ",") eqn:Hc; [reflexivity|].
  simpl. rewrite Hc. exact IH.
Qed.

(** X6.  For a data URL as [readAsDataURL] produces it, [data:] followed
    by a media type, [;base64,] and a non-empty base64 text, the payload
    sent is exactly the base64 text. *)
Theorem data_url_payload_is_base64 (mime b64 : string) :
  after_first_comma mime = None ->
  after_first_comma b64 = None ->
  b64 <> EmptyString ->
  inline_payload ("data:" ++ mime ++ ";base64," ++ b64) = b64.
Proof.
  intros Hm Hb Hne. unfold inline_payload. rewrite second_segment.
  change ("data:" ++ mime ++ ";base64," ++ b64)
    with ("data:" ++ (mime ++ (";base64" ++ String "," b64))).
  rewrite !after_first_comma_app by (reflexivity || exact Hm).
  cbn [after_first_comma Ascii.eqb Bool.eqb].
  rewrite (before_comma_all b64 Hb).
  destruct b64; [contradiction | reflexivity].
Qed.

Lemma data_url_payload_is_base64_witness :
  inline_payload ("data:" ++ "application/pdf" ++ ";base64," ++ "JVBERi0xLjQK")
  = "JVBERi0xLjQK".
Proof.
  apply (data_url_payload_is_base64 "application/pdf" "JVBERi0xLjQK").
  - reflexivity.
  - reflexivity.
  - discriminate.
Defined.

(** X7.  When nothing follows the comma, as in the data URL of an empty
    file, no prefix is stripped: the whole data string, prefix and comma
    included, is sent as the payload. *)
Theorem payload_of_empty_file (prefix : string) :
  after_first_comma prefix = None ->
  inline_payload (prefix ++ ",") = prefix ++ ",".
Proof.
  intro Hp. unfold inline_payload. rewrite second_segment.
  rewrite (after_first_comma_app prefix "," Hp). reflexivity.
Qed.

Lemma payload_of_empty_file_witness :
  inline_payload ("data:application/pdf;base64" ++ ",")
  = "data:application/pdf;base64" ++ ",".
Proof.
  apply (payload_of_empty_file "data:application/pdf;base64"). reflexivity.
Defined.

(** X8.  Computing the payload of a payload changes nothing: what is
    sent for a file is either the whole data string or a text without
    comma, and both are their own payload. *)
Theorem inline_payload_idempotent (d : string) :
  inline_payload (inline_payload d) = inline_payload d.
Proof.
  unfold inline_payload at 2 3. rewrite second_segment.
  destruct (after_first_comma d) as [rest|] eqn:Hd; cbn [or_else].
  - destruct (before_comma rest) as [|c seg] eqn:Hseg.
    + unfold inline_payload. rewrite second_segment, Hd, Hseg. reflexivity.
    + unfold inline_payload. rewrite second_segment.
      rewrite <- Hseg, before_comma_has_no_comma. reflexivity.
  - unfold inline_payload. rewrite second_segment, Hd. reflexivity.
Qed.

(** X9.  The payload of a non-empty data string is never empty. *)
Theorem payload_empty_only_for_empty_data (d : string) :
  inline_payload d = EmptyString <-> d = EmptyString.
Proof.
  unfold inline_payload. rewrite second_segment. split.
  - destruct (after_first_comma d) as [rest|]; cbn [or_else];
      [|intro H; exact H].
    destruct (before_comma rest); [intro H; exact H | discriminate].
  - intros ->. reflexivity.
Qed.

Lemma prefix_app (n post : string) : String.prefix n (n ++ post) = true.
Proof.
  induction n as [|c n IH]; simpl; [destruct post; reflexivity|].
  destruct (ascii_dec c c) as [_|Hne]; [exact IH | contradiction].
Qed.

Lemma includes_app (pre n post : string) :
  includes (pre ++ n ++ post) n = true.
Proof.
  induction pre as [|c pre IH].
  - cbn [append]. pose proof (prefix_app n post) as Hp.
    destruct (n ++ post); cbn [includes]; rewrite Hp; reflexivity.
  - cbn [append includes].
    destruct (String.prefix n (String c (pre ++ n ++ post)));
      [reflexivity | exact IH].
Qed.

(** X10.  An error whose message contains the digits 503 anywhere is
    classed as transient, whatever its status, its code and the rest of
    the message. *)
Theorem message_with_503_is_retried (name : string) (status code : js_prim)
    (before after : string) :
  is503 (ExnObject name status code (PString (before ++ "503" ++ after)))
  = true.
Proof.
  unfold is503. cbn [get_status get_code get_message string_and].
  rewrite includes_app. rewrite !orb_true_r. reflexivity.
Qed.

End PayloadProperties.

(* ===================================================================== *)
(** * More on the sheet-append endpoint                                   *)
(* ===================================================================== *)

Section AppendProperties.
Import JSString JSON Server.

Lemma element_text_cases (v : json) :
  (printable v = true -> exists t, element_text v = inr t)
  /\ (printable v = false -> element_text v = inl NOT_PRIMITIVE).
Proof.
  induction v as [|b|n|s|elems IH|members _] using json_nested_ind;
    try (split; [intros _; eexists; reflexivity | discriminate]).
  - destruct b; (split; [intros _; eexists; reflexivity | discriminate]).
  - cbn [printable element_text].
    induction IH as [|x rest [Hok Hbad] _ IHrest]; cbn [forallb].
    + split; [intros _; eexists; reflexivity | discriminate].
    + destruct IHrest as [Hoks Hbads].
      destruct (printable x); cbn [andb].
      * destruct (Hok eq_refl) as [t Ht]. split.
        -- intro Hall. destruct (Hoks Hall) as [ts Hts].
           destruct rest as [|y rest]; [exists t; exact Ht|].
           rewrite Ht, Hts. eexists; reflexivity.
        -- intro Hall. specialize (Hbads Hall).
           destruct rest as [|y rest]; [discriminate Hall|].
           rewrite Ht, Hbads. reflexivity.
      * rewrite (Hbad eq_refl). split; [discriminate|]. intros _.
        destruct rest as [|y rest]; [reflexivity|].
        reflexivity.
  - cbn [printable element_text].
    destruct (lookup "toString" members);
      (split; [try discriminate; intros _; eexists; reflexivity
              | try discriminate; reflexivity]).
Qed.

Lemma element_texts_cases (elems : list json) :
  (forallb printable elems = true -> exists ts, element_texts elems = inr ts)
  /\ (forallb printable elems = false ->
      element_texts elems = inl NOT_PRIMITIVE).
Proof.
  induction elems as [|x rest [Hoks Hbads]]; cbn [forallb element_texts].
  - split; [intros _; eexists; reflexivity | discriminate].
  - destruct (element_text_cases x) as [Hok Hbad].
    destruct (printable x); cbn [andb].
    + destruct (Hok eq_refl) as [t ->]. split.
      * intro Hall. destruct (Hoks Hall) as [ts ->]. eexists; reflexivity.
      * intro Hall. rewrite (Hbads Hall). reflexivity.
    + rewrite (Hbad eq_refl). split; [discriminate | reflexivity].
Qed.

Lemma content_cell_cases (c : cell) :
  (joins c = true -> exists c', content_cell c = inr c')
  /\ (joins c = false -> content_cell c = inl NOT_PRIMITIVE).
Proof.
  destruct c as [[| | | |l|]|]; cbn [joins content_cell];
    try (split; [intros _; eexists; reflexivity | discriminate]).
  unfold join_values. destruct (element_texts_cases l) as [Hok Hbad]. split.
  - intro H. destruct (Hok H) as [ts ->]. eexists; reflexivity.
  - intro H. rewrite (Hbad H). reflexivity.
Qed.

Lemma staticGk_cell_cases (g : cell) :
  (joins g = true -> exists t, staticGk_cell g = inr (Some (JString t)))
  /\ (joins g = false -> staticGk_cell g = inl NOT_PRIMITIVE).
Proof.
  destruct g as [[| | | |l|]|]; cbn [joins staticGk_cell];
    try (split; [intros _; eexists; reflexivity | discriminate]).
  destruct l as [|x l];
    [split; [intros _; eexists; reflexivity | discriminate]|].
  unfold join_values.
  destruct (element_texts_cases (x :: l)) as [Hok Hbad]. split.
  - intro H. destruct (Hok H) as [ts ->]. eexists; reflexivity.
  - intro H. rewrite (Hbad H). reflexivity.
Qed.

Lemma row_of_cases (item : json) :
  (row_ok item = true ->
   exists row,
     row_of item = inr row
     /\ length row = 6
     /\ exists t, nth_error row 5 = Some (Some (JString t)))
  /\ (row_ok item = false ->
      exists msg, row_of item = inl msg /\ row_failure msg).
Proof.
  assert (Hgen : forall it, it <> JNull ->
            row_ok it = (joins (prop it "content")
                         && joins (prop it "staticGk"))%bool
            /\ row_of it =
                 match content_cell (prop it "content") with
                 | inl e => inl e
                 | inr c =>
                     match staticGk_cell (prop it "staticGk") with
                     | inl e => inl e
                     | inr g =>
                         inr [ prop it "title"; prop it "subTitle";
                               prop it "date"; prop it "headline"; c; g ]
                     end
                 end).
  { intros it Hne. destruct it; try contradiction; split; reflexivity. }
  destruct item as [|b|n|s|l|ms] eqn:Hitem;
    [split; [discriminate|]; intros _; eexists; split;
       [reflexivity | left; reflexivity] | | | | |];
    rewrite <- Hitem;
    (assert (Hne : item <> JNull) by (rewrite Hitem; discriminate);
     destruct (Hgen item Hne) as [-> ->];
     destruct (content_cell_cases (prop item "content")) as [Hc Hcb];
     destruct (staticGk_cell_cases (prop item "staticGk")) as [Hg Hgb];
     destruct (joins (prop item "content")); cbn [andb];
     [ destruct (Hc eq_refl) as [c' ->];
       destruct (joins (prop item "staticGk"));
       [ destruct (Hg eq_refl) as [t ->];
         split; [intros _ | discriminate];
         eexists; split; [reflexivity|]; split; [reflexivity|];
         exists t; reflexivity
       | rewrite (Hgb eq_refl); split; [discriminate|]; intros _;
         eexists; split; [reflexivity | right; reflexivity] ]
     | rewrite (Hcb eq_refl); split; [discriminate|]; intros _;
       eexists; split; [reflexivity | right; reflexivity] ]).
Qed.

Lemma rows_of_cases (items : list json) :
  (forallb row_ok items = true ->
   exists vals,
     rows_of items = inr vals
     /\ length vals = length items
     /\ Forall (fun row => length row = 6
                           /\ exists t,
                                nth_error row 5 = Some (Some (JString t)))
          vals)
  /\ (forallb row_ok items = false ->
      exists msg, rows_of items = inl msg /\ row_failure msg).
Proof.
  induction items as [|item items [Hoks Hbads]]; cbn [forallb rows_of].
  - split; [|discriminate]. intros _. exists []. repeat split. constructor.
  - destruct (row_of_cases item) as [Hok Hbad].
    destruct (row_ok item); cbn [andb].
    + destruct (Hok eq_refl) as (row & -> & Hlen & Hsix). split.
      * intro Hall. destruct (Hoks Hall) as (vals & -> & Hl & Hall').
        exists (row :: vals). split; [reflexivity|].
        split; [simpl; lia|]. constructor; [split; assumption | exact Hall'].
      * intro Hall. destruct (Hbads Hall) as (msg & -> & Hmsg).
        exists msg. split; [reflexivity | exact Hmsg].
    + destruct (Hbad eq_refl) as (msg & -> & Hmsg).
      split; [discriminate|]. intros _.
      exists msg. split; [reflexivity | exact Hmsg].
Qed.

Example join_prints_numbers :
  join_values ","
    [JNumber "1.50"; JNumber "1e2"; JNumber "-0"; JNumber "1e21";
     JNumber "0.0000001"; JNumber "1e999"; JNull; JBool true;
     JArray [JNumber "9007199254740993"; JArray []]; JObject []]
  = inr "1.5,100,0,1e+21,1e-7,Infinity,,true,9007199254740992,,[object Object]"%string.
Proof. vm_compute. reflexivity. Qed.

Example join_throws_on_toString_member :
  join_values "," [JString "a"; JObject [("toString", JNumber "1")]]
  = inl "Cannot convert object to primitive value"%string.
Proof. vm_compute. reflexivity. Qed.

Example underflowing_number_is_falsy :
  sheets_update configured accepting
    {| session := Some signed_in; body_data := Some (JNumber "1e-400") |}
  = ({| status := 400; body := json_error "Missing data" |}, []).
Proof. vm_compute. reflexivity. Qed.

Example number_is_not_an_array :
  sheets_update configured accepting
    {| session := Some signed_in; body_data := Some (JNumber "5e-324") |}
  = ({| status := 500; body := json_error "data.map is not a function" |},
     [EvSetCredentials {| access_token := Some "ya29";
                          refresh_token := None |};
      EvConsoleError "Error updating sheet:"]).
Proof. vm_compute. reflexivity. Qed.

(** X11.  For any array of items of which none is [null] and none holds,
    in an array under [content] or [staticGk], an object with a member
    [toString], NewsItems or not, the endpoint issues one append call
    with one row per item; every row has six cells, and its sixth cell is
    always a text (the joined background facts, or "Not applicable" when
    [staticGk] is missing, empty or not an array). *)
Theorem any_items_give_six_cell_rows (e : env) (api : sheets_api)
    (req : http_request) (sess : session_data) (toks : credentials)
    (id : string) (items : list json) :
  session req = Some sess ->
  tokens sess = Some toks ->
  SPREADSHEET_ID e = Some id ->
  id <> EmptyString ->
  body_data req = Some (JArray items) ->
  forallb row_ok items = true ->
  exists vals,
    appended (snd (sheets_update e api req))
      = [ {| spreadsheetId := id; range := "Current Affairs!A:F";
             valueInputOption := "USER_ENTERED"; values := vals |} ]
    /\ length vals = length items
    /\ Forall (fun row => length row = 6
                          /\ exists s, nth_error row 5 = Some (Some (JString s)))
         vals.
Proof.
  intros Hsess Htok Hid Hne Hdata Hok.
  destruct (proj1 (rows_of_cases items) Hok) as (vals & Hvals & Hlen & Hall).
  exists vals. split; [|split; assumption].
  unfold sheets_update. rewrite Hsess, Htok, Hid, Hdata.
  destruct id as [|c id']; [contradiction|].
  cbn [missing truthy negb map_rows or_else]. rewrite Hvals.
  destruct (api _); reflexivity.
Qed.

Lemma any_items_give_six_cell_rows_witness :
  exists vals,
    appended
      (snd (sheets_update configured accepting
              {| session := Some signed_in;
                 body_data :=
                   Some (JArray [JString "x";
                                 JObject [("title", JBool true);
                                          ("content",
                                           JArray [JNumber "1.50";
                                                   JObject []])]]) |}))
      = [ {| spreadsheetId := "sheet-1"; range := "Current Affairs!A:F";
             valueInputOption := "USER_ENTERED"; values := vals |} ]
    /\ length vals
       = length [JString "x";
                 JObject [("title", JBool true);
                          ("content", JArray [JNumber "1.50"; JObject []])]]
    /\ Forall (fun row => length row = 6
                          /\ exists s, nth_error row 5 = Some (Some (JString s)))
         vals.
Proof.
  apply (any_items_give_six_cell_rows configured accepting
           {| session := Some signed_in;
              body_data :=
                Some (JArray [JString "x";
                              JObject [("title", JBool true);
                                       ("content",
                                        JArray [JNumber "1.50";
                                                JObject []])]]) |}
           signed_in
           {| access_token := Some "ya29"; refresh_token := None |}
           "sheet-1"
           [JString "x";
            JObject [("title", JBool true);
                     ("content", JArray [JNumber "1.50"; JObject []])]]).
  - reflexivity.
  - reflexivity.
  - reflexivity.
  - discriminate.
  - reflexivity.
  - reflexivity.
Defined.

(** X12.  One item of which no row can be made, a [null] or an item
    holding in an array under [content] or [staticGk] an object with a
    member [toString], makes the whole request fail: the handler answers
    500 with the message of the [TypeError] thrown and issues no append
    call, so that no row of the other items is written. *)
Theorem failing_item_appends_nothing (e : env) (api : sheets_api)
    (req : http_request) (sess : session_data) (toks : credentials)
    (id : string) (items : list json) :
  session req = Some sess ->
  tokens sess = Some toks ->
  SPREADSHEET_ID e = Some id ->
  id <> EmptyString ->
  body_data req = Some (JArray items) ->
  forallb row_ok items = false ->
  exists msg,
    fst (sheets_update e api req)
      = {| status := 500; body := JObject [("error", JString msg)] |}
    /\ (msg = "Cannot read properties of null (reading 'title')"%string
        \/ msg = "Cannot convert object to primitive value"%string)
    /\ appended (snd (sheets_update e api req)) = [].
Proof.
  intros Hsess Htok Hid Hne Hdata Hbad.
  destruct (proj2 (rows_of_cases items) Hbad) as (msg & Hrows & Hmsg).
  exists msg.
  unfold sheets_update. rewrite Hsess, Htok, Hid, Hdata.
  destruct id as [|c id']; [contradiction|].
  cbn [missing truthy negb map_rows]. rewrite Hrows.
  split; [|split; [exact Hmsg | reflexivity]].
  destruct Hmsg as [-> | ->]; reflexivity.
Qed.

Lemma failing_item_appends_nothing_witness :
  exists msg,
    fst (sheets_update configured accepting
           {| session := Some signed_in;
              body_data :=
                Some (JArray (map json_of_item sample_items
                                ++ [JObject
                                      [("content",
                                        JArray [JObject
                                                  [("toString", JNumber "1")]])];
                                    JNull])) |})
      = {| status := 500; body := JObject [("error", JString msg)] |}
    /\ (msg = "Cannot read properties of null (reading 'title')"%string
        \/ msg = "Cannot convert object to primitive value"%string)
    /\ appended
         (snd (sheets_update configured accepting
                 {| session := Some signed_in;
                    body_data :=
                      Some (JArray (map json_of_item sample_items
                                      ++ [JObject
                                            [("content",
                                              JArray [JObject
                                                        [("toString",
                                                          JNumber "1")]])];
                                          JNull])) |})) = [].
Proof.
  apply (failing_item_appends_nothing configured accepting
           {| session := Some signed_in;
              body_data :=
                Some (JArray (map json_of_item sample_items
                                ++ [JObject
                                      [("content",
                                        JArray [JObject
                                                  [("toString", JNumber "1")]])];
                                    JNull])) |}
           signed_in
           {| access_token := Some "ya29"; refresh_token := None |}
           "sheet-1"
           (map json_of_item sample_items
              ++ [JObject
                    [("content",
                      JArray [JObject [("toString", JNumber "1")]])];
                  JNull])).
  - reflexivity.
  - reflexivity.
  - reflexivity.
  - discriminate.
  - reflexivity.
  - reflexivity.
Defined.

(** X13.  The endpoint answers 200 only after it has issued one append
    call and the spreadsheet service has accepted it. *)
Theorem success_means_accepted_append (e : env) (api : sheets_api)
    (req : http_request) :
  status (fst (sheets_update e api req)) = 200%Z ->
  exists toks call,
    snd (sheets_update e api req) = [EvSetCredentials toks; EvAppend call]
    /\ api call = None.
Proof.
  unfold sheets_update.
  destruct (session req) as [sess|]; [|discriminate].
  destruct (tokens sess) as [toks|]; [|discriminate].
  destruct (missing (SPREADSHEET_ID e)); [discriminate|].
  destruct (body_data req) as [data|]; [|discriminate].
  destruct (negb (truthy data)); [discriminate|].
  destruct (map_rows data) as [msg|vals]; [discriminate|].
  match goal with |- context [api ?c] => destruct (api c) eqn:Hapi end.
  - discriminate.
  - intros _. eexists _, _. split; [reflexivity | exact Hapi].
Qed.

Lemma success_means_accepted_append_witness :
  exists toks call,
    snd (sheets_update configured accepting
           {| session := Some signed_in;
              body_data := Some (JArray (map json_of_item sample_items)) |})
      = [EvSetCredentials toks; EvAppend call]
    /\ accepting call = None.
Proof.
  apply (success_means_accepted_append configured accepting
           {| session := Some signed_in;
              body_data := Some (JArray (map json_of_item sample_items)) |}).
  reflexivity.
Defined.

(** X14.  Whenever the handler does anything beyond answering (sets
    credentials, calls the spreadsheet service, logs), the three gates
    have been passed: the session has tokens, SPREADSHEET_ID is
    configured, and the body carries truthy data. *)
Theorem effects_only_behind_the_gates (e : env) (api : sheets_api)
    (req : http_request) :
  snd (sheets_update e api req) <> [] ->
  authorized req = true
  /\ missing (SPREADSHEET_ID e) = false
  /\ exists data, body_data req = Some data /\ truthy data = true.
Proof.
  unfold sheets_update, authorized.
  destruct (session req) as [sess|]; [|intro H; contradiction H; reflexivity].
  destruct (tokens sess) as [toks|]; [|intro H; contradiction H; reflexivity].
  destruct (missing (SPREADSHEET_ID e));
    [intro H; contradiction H; reflexivity|].
  destruct (body_data req) as [data|];
    [|intro H; contradiction H; reflexivity].
  destruct (truthy data) eqn:Ht;
    [|intro H; contradiction H; reflexivity].
  intros _. repeat split. eauto.
Qed.

Lemma effects_only_behind_the_gates_witness :
  authorized {| session := Some signed_in;
                body_data := Some (JString "rows") |} = true
  /\ missing (SPREADSHEET_ID configured) = false
  /\ exists data,
       body_data {| session := Some signed_in;
                    body_data := Some (JString "rows") |} = Some data
       /\ truthy data = true.
Proof.
  apply (effects_only_behind_the_gates configured accepting
           {| session := Some signed_in;
              body_data := Some (JString "rows") |}).
  vm_compute. discriminate.
Defined.

End AppendProperties.

(* ===================================================================== *)
(** * The authorization routes and the session                            *)
(* ===================================================================== *)

Section SessionProperties.
Import JSString JSON Server Auth.

(** X15.  [/api/auth/status] and the gate of [/api/sheets/update] agree:
    the status route reports [connected: false] exactly for the sessions
    with which the append route answers 401. *)
Theorem status_agrees_with_gate (e : env) (api : sheets_api)
    (req : http_request) :
  auth_status (session req)
    = {| status := 200; body := JObject [("connected", JBool false)] |}
  <-> status (fst (sheets_update e api req)) = 401%Z.
Proof.
  unfold auth_status, connected, sheets_update.
  destruct (session req) as [sess|]; [|split; reflexivity].
  destruct (tokens sess) as [toks|]; [|split; reflexivity].
  split; [discriminate|].
  destruct (missing (SPREADSHEET_ID e)); [discriminate|].
  destruct (body_data req) as [data|]; [|discriminate].
  destruct (negb (truthy data)); [discriminate|].
  destruct (map_rows data) as [msg|vals]; [discriminate|].
  match goal with |- context [api ?c] => destruct (api c) end; discriminate.
Qed.

Lemma events_without_tokens (e : env) (api : sheets_api) (data : option json)
    (sess : session_data) :
  tokens sess = None ->
  snd (sheets_update e api {| session := Some sess; body_data := data |}) = [].
Proof.
  intro H. unfold sheets_update. cbn [session]. rewrite H. reflexivity.
Qed.

Lemma events_with_tokens (e : env) (api : sheets_api) (data : option json)
    (sess : session_data) (toks : credentials) :
  tokens sess = Some toks ->
  Forall (fun ev => forall t, ev = EvSetCredentials t -> t = toks)
    (snd (sheets_update e api {| session := Some sess; body_data := data |})).
Proof.
  intro H. unfold sheets_update. cbn [session body_data]. rewrite H.
  destruct (missing (SPREADSHEET_ID e)); [constructor|].
  destruct data as [d|]; [|constructor].
  destruct (negb (truthy d)); [constructor|].
  destruct (map_rows d) as [msg|vals].
  - repeat constructor; intros t Ht; congruence.
  - match goal with |- context [api ?c] => destruct (api c) end;
      repeat constructor; intros t Ht; congruence.
Qed.

Lemma serve_keeps_session_ok (e : env) (api : sheets_api)
    (getToken : token_exchange) (sess : session_data) (c : call) :
  session_ok getToken sess ->
  session_ok getToken (fst (serve e api getToken sess c)).
Proof.
  intro Hok. destruct c as [code| | |data]; cbn [serve fst]; try exact Hok.
  - unfold auth_callback. destruct (getToken code) as [t|] eqn:Hg.
    + intros t' Ht'. cbn in Ht'. injection Ht' as <-. exists code. exact Hg.
    + exact Hok.
  - intros t Ht. discriminate Ht.
Qed.

(** X16.  Over any sequence of requests of a browser session that starts
    without tokens, the credentials the append route puts on the OAuth
    client are always tokens that the token exchange has handed out. *)
Theorem credentials_come_from_the_exchange (e : env) (api : sheets_api)
    (getToken : token_exchange) (cs : list call) :
  Forall (fun ev => forall t, ev = EvSetCredentials t -> issued getToken t)
    (snd (serve_all e api getToken fresh cs)).
Proof.
  assert (Hgen : forall sess, session_ok getToken sess ->
            Forall (fun ev => forall t, ev = EvSetCredentials t ->
                                        issued getToken t)
              (snd (serve_all e api getToken sess cs))).
  { induction cs as [|c cs IH]; intros sess Hok; [constructor|].
    cbn [serve_all].
    pose proof (serve_keeps_session_ok e api getToken sess c Hok) as Hok'.
    destruct (serve e api getToken sess c) as [sess' evs] eqn:Hserve.
    cbn [fst] in Hok'. specialize (IH sess' Hok').
    destruct (serve_all e api getToken sess' cs) as [sess'' evs'].
    cbn [snd] in *. apply Forall_app. split; [|exact IH].
    destruct c as [code| | |data]; cbn [serve] in Hserve;
      injection Hserve as _ <-; try constructor.
    destruct (tokens sess) as [toks|] eqn:Ht.
    - eapply Forall_impl; [|apply (events_with_tokens e api data sess toks Ht)].
      intros ev Hev t Heq. rewrite (Hev t Heq). apply Hok. exact Ht.
    - rewrite (events_without_tokens e api data sess Ht). constructor. }
  apply Hgen. intros t Ht. discriminate Ht.
Qed.

(** X17.  After a logout nothing reaches the spreadsheet service, and no
    credentials are set, for as long as no token exchange succeeds: every
    append request in between is turned away. *)
Theorem logout_revokes (e : env) (api : sheets_api)
    (getToken : token_exchange) (sess : session_data) (cs : list call) :
  (forall code, In (Callback code) cs -> getToken code = None) ->
  snd (serve_all e api getToken sess (Logout :: cs)) = [].
Proof.
  intro Hfail. cbn [serve_all serve auth_logout snd].
  assert (Hgen : forall s, tokens s = None ->
            (forall code, In (Callback code) cs -> getToken code = None) ->
            snd (serve_all e api getToken s cs) = []).
  { clear Hfail sess. induction cs as [|c cs IH]; intros s Hs Hfail;
      [reflexivity|].
    cbn [serve_all].
    assert (Hstep : tokens (fst (serve e api getToken s c)) = None
                    /\ snd (serve e api getToken s c) = []).
    { destruct c as [code| | |data]; cbn [serve fst snd]; auto.
      - unfold auth_callback. rewrite (Hfail code (or_introl eq_refl)).
        split; [exact Hs | reflexivity].
      - split; [exact Hs | apply events_without_tokens; exact Hs]. }
    destruct (serve e api getToken s c) as [s' evs]. cbn [fst snd] in Hstep.
    destruct Hstep as [Hs' ->].
    specialize (IH s' Hs' (fun code H => Hfail code (or_intror H))).
    destruct (serve_all e api getToken s' cs) as [s'' evs'].
    cbn [snd] in *. exact IH. }
  specialize (Hgen fresh eq_refl Hfail).
  destruct (serve_all e api getToken fresh cs) as [s'' evs'].
  exact Hgen.
Qed.

Lemma logout_revokes_witness :
  snd (serve_all configured accepting (one_code "4/0A" sample_tokens)
         signed_in
         (Logout :: [Status; Callback (Some "stale");
                     Update (Some (JArray (map json_of_item sample_items)))]))
  = [].
Proof.
  apply (logout_revokes configured accepting (one_code "4/0A" sample_tokens)
           signed_in
           [Status; Callback (Some "stale");
            Update (Some (JArray (map json_of_item sample_items)))]).
  intros code [H|[H|[H|[]]]]; try discriminate H.
  injection H as <-. reflexivity.
Defined.

(** X18.  Signing in and then submitting: when the token exchange
    accepts the code, the next append request of the session, whatever
    the session held before, puts exactly the tokens just obtained on the
    OAuth client and issues the append call with one row per NewsItem. *)
Theorem sign_in_then_append (e : env) (api : sheets_api)
    (getToken : token_exchange) (sess : session_data) (code : option string)
    (toks : credentials) (id : string) (items : list Gemini.NewsItem) :
  getToken code = Some toks ->
  SPREADSHEET_ID e = Some id ->
  id <> EmptyString ->
  exists rest,
    snd (serve_all e api getToken sess
           [Callback code; Update (Some (JArray (map json_of_item items)))])
    = EvSetCredentials toks
        :: EvAppend {| spreadsheetId := id; range := "Current Affairs!A:F";
                       valueInputOption := "USER_ENTERED";
                       values := map sheet_row items |}
        :: rest.
Proof.
  intros Hg Hid Hne.
  cbn [serve_all serve]. unfold auth_callback. rewrite Hg. cbn [snd fst].
  unfold sheets_update. cbn [session body_data tokens]. rewrite Hid.
  destruct id as [|c id']; [contradiction|].
  cbn [missing truthy negb map_rows or_else]. rewrite rows_of_items.
  match goal with |- context [api ?c] => destruct (api c) end;
    eexists; reflexivity.
Qed.

Lemma sign_in_then_append_witness :
  exists rest,
    snd (serve_all configured accepting (one_code "4/0A" sample_tokens) fresh
           [Callback (Some "4/0A");
            Update (Some (JArray (map json_of_item sample_items)))])
    = EvSetCredentials sample_tokens
        :: EvAppend {| spreadsheetId := "sheet-1";
                       range := "Current Affairs!A:F";
                       valueInputOption := "USER_ENTERED";
                       values := map sheet_row sample_items |}
        :: rest.
Proof.
  apply (sign_in_then_append configured accepting
           (one_code "4/0A" sample_tokens) fresh (Some "4/0A") sample_tokens
           "sheet-1" sample_items).
  - reflexivity.
  - reflexivity.
  - discriminate.
Defined.

End SessionProperties.

(* ===================================================================== *)
(** * More on the exports                                                 *)
(* ===================================================================== *)

Section ExportProperties.
Import JSString Gemini Exports.
Local Open Scope string_scope.

Lemma str_app_assoc (a b c : string) : (a ++ b) ++ c = a ++ b ++ c.
Proof. induction a as [|x a IH]; simpl; [reflexivity | rewrite IH; reflexivity]. Qed.

Lemma str_app_nil_r (a : string) : a ++ "" = a.
Proof. induction a as [|x a IH]; simpl; [reflexivity | rewrite IH; reflexivity]. Qed.

Lemma join_empty_cons (x : string) (l : list string) :
  join "" (x :: l) = x ++ join "" l.
Proof.
  destruct l as [|y l]; [cbn [join]; rewrite str_app_nil_r; reflexivity|].
  reflexivity.
Qed.

Lemma join_empty_app (xs ys : list string) :
  join "" (xs ++ ys)%list = join "" xs ++ join "" ys.
Proof.
  induction xs as [|x xs IH]; [reflexivity|].
  change ((x :: xs) ++ ys)%list with (x :: (xs ++ ys))%list.
  rewrite !join_empty_cons, IH, str_app_assoc. reflexivity.
Qed.

Lemma contentHtml_concat (xs ys : list NewsItem) :
  contentHtml (xs ++ ys)%list = contentHtml xs ++ contentHtml ys.
Proof.
  unfold contentHtml. rewrite map_app. apply join_empty_app.
Qed.

(** X19.  The HTML of a list is the concatenation of the HTML of its
    items, in order: rendering two lists one after the other gives the
    rendering of the joined list, and no separator or numbering ties an
    item to its neighbours. *)
Theorem html_of_appended_lists (xs ys : list NewsItem) :
  contentHtml (xs ++ ys)%list = contentHtml xs ++ contentHtml ys.
Proof. apply contentHtml_concat. Qed.

Lemma prefix_split (n s : string) :
  String.prefix n s = true -> exists b, s = n ++ b.
Proof.
  revert s. induction n as [|c n IH]; intros s H; [exists s; reflexivity|].
  destruct s as [|d s]; [discriminate|]. simpl in H.
  destruct (ascii_dec c d) as [->|]; [|discriminate].
  destruct (IH s H) as [b ->]. exists b. reflexivity.
Qed.

Lemma includes_iff (s n : string) :
  includes s n = true <-> exists a b, s = a ++ n ++ b.
Proof.
  split.
  - induction s as [|c s IH]; cbn [includes].
    + destruct (String.prefix n "") eqn:Hp; [|discriminate].
      intros _. destruct (prefix_split n "" Hp) as [b Hb].
      exists "", b. exact Hb.
    + destruct (String.prefix n (String c s)) eqn:Hp.
      * intros _. destruct (prefix_split _ _ Hp) as [b Hb].
        exists "", b. exact Hb.
      * intro H. destruct (IH H) as (a & b & ->).
        exists (String c a), b. reflexivity.
  - intros (a & b & ->). apply includes_app.
Qed.

Lemma includes_inside (x y z n : string) :
  includes y n = true -> includes (x ++ y ++ z) n = true.
Proof.
  intro H. apply includes_iff in H. destruct H as (a & b & ->).
  apply includes_iff. exists (x ++ a), (b ++ z).
  rewrite !str_app_assoc. reflexivity.
Qed.

Lemma includes_skip (x y n : string) :
  includes y n = true -> includes (x ++ y) n = true.
Proof.
  intro H. apply includes_iff in H. destruct H as (a & b & ->).
  apply includes_iff. exists (x ++ a), b.
  rewrite !str_app_assoc. reflexivity.
Qed.

Lemma includes_self (n : string) : includes n n = true.
Proof.
  apply includes_iff. exists "", "". simpl. rewrite str_app_nil_r. reflexivity.
Qed.

Lemma contentHtml_includes_item (items : list NewsItem) (item : NewsItem)
    (n : string) :
  In item items ->
  includes (item_html item) n = true ->
  includes (contentHtml items) n = true.
Proof.
  intros Hin Hn. apply in_split in Hin. destruct Hin as (l1 & l2 & ->).
  rewrite contentHtml_concat.
  change (item :: l2) with ([item] ++ l2)%list. rewrite contentHtml_concat.
  apply includes_inside.
  unfold contentHtml at 1. cbn [map join]. exact Hn.
Qed.

Lemma join_li_includes (points : list string) (p : string) :
  In p points -> includes (join "" (map li points)) (li p) = true.
Proof.
  intro Hin. apply in_split in Hin. destruct Hin as (l1 & l2 & ->).
  rewrite map_app, join_empty_app. cbn [map]. rewrite join_empty_cons.
  apply includes_inside. apply includes_self.
Qed.

(** X20.  The HTML export writes the texts of the items as they are,
    without escaping: for every item of the list the document contains
    its headline, its section, its subsection and its date verbatim, and
    every body point verbatim between [<li>] and [</li>], whatever
    characters these texts hold. *)
Theorem html_holds_item_texts_verbatim (dateStr : string)
    (items : list NewsItem) (item : NewsItem) :
  In item items ->
  includes (htmlContent dateStr items) (headline item) = true
  /\ includes (htmlContent dateStr items) (title item) = true
  /\ includes (htmlContent dateStr items) (subTitle item) = true
  /\ includes (htmlContent dateStr items) (date item) = true
  /\ forall p, In p (content item) ->
               includes (htmlContent dateStr items) (li p) = true.
Proof.
  intro Hin.
  assert (Hpage : forall n, includes (item_html item) n = true ->
                            includes (htmlContent dateStr items) n = true).
  { intros n Hn. unfold htmlContent.
    do 4 apply includes_skip. apply includes_inside.
    apply (contentHtml_includes_item items item n Hin Hn). }
  split; [|split; [|split; [|split]]].
  - apply Hpage. unfold item_html.
    do 6 apply includes_skip. apply includes_inside. apply includes_self.
  - apply Hpage. unfold item_html.
    apply includes_inside. apply includes_self.
  - apply Hpage. unfold item_html.
    do 2 apply includes_skip. apply includes_inside. apply includes_self.
  - apply Hpage. unfold item_html.
    do 4 apply includes_skip. apply includes_inside. apply includes_self.
  - intros p Hp. apply Hpage. unfold item_html.
    do 8 apply includes_skip. apply includes_inside.
    apply join_li_includes. exact Hp.
Qed.

Lemma html_holds_item_texts_verbatim_witness :
  includes (htmlContent "01 November 2026" Server.sample_items)
    (headline (Server.hd_item Server.sample_items)) = true
  /\ includes (htmlContent "01 November 2026" Server.sample_items)
       (title (Server.hd_item Server.sample_items)) = true
  /\ includes (htmlContent "01 November 2026" Server.sample_items)
       (subTitle (Server.hd_item Server.sample_items)) = true
  /\ includes (htmlContent "01 November 2026" Server.sample_items)
       (date (Server.hd_item Server.sample_items)) = true
  /\ forall p, In p (content (Server.hd_item Server.sample_items)) ->
               includes (htmlContent "01 November 2026" Server.sample_items)
                 (li p) = true.
Proof.
  apply (html_holds_item_texts_verbatim "01 November 2026"
           Server.sample_items (Server.hd_item Server.sample_items)).
  left. reflexivity.
Defined.

(** X21.  The Excel export and the sheet append write the same cells:
    for every list of NewsItems the values of the rows handed to
    [json_to_sheet], taken in column order, are the rows of the append
    call, and every row has the six column headers in the same order. *)
Theorem excel_rows_match_sheet_rows (c : clock) (items : list NewsItem) :
  exists ws name,
    handleDownloadExcel c (Some items) = Some ([("Current Affairs", ws)], name)
    /\ map (map (fun kv => Some (JSON.JString (snd kv)))) (json_to_sheet ws)
       = map Server.sheet_row items
    /\ Forall (fun row => map fst row
                          = ["Section"; "Sub-Section"; "Date"; "Headline";
                             "Content"; "Static GK"])
         (json_to_sheet ws).
Proof.
  eexists _, _. split; [reflexivity|]. cbn [json_to_sheet]. split.
  - rewrite map_map. apply map_ext. intro n.
    unfold excel_row, Server.sheet_row. cbn [map snd].
    destruct (staticGk n); reflexivity.
  - apply Forall_forall. intros row Hin. apply in_map_iff in Hin.
    destruct Hin as (n & <- & _). reflexivity.
Qed.

Lemma hd_split (sep : ascii) (a b : string) :
  ~ In sep (list_ascii_of_string a) ->
  hd EmptyString (split sep (a ++ String sep b)) = a.
Proof.
  induction a as [|c a IH]; intro Hno; simpl.
  - rewrite Ascii.eqb_refl. reflexivity.
  - destruct (Ascii.eqb c sep) eqn:Hc.
    + apply Ascii.eqb_eq in Hc. exfalso. apply Hno. left. exact Hc.
    + assert (Hno' : ~ In sep (list_ascii_of_string a))
        by (intro H; apply Hno; right; exact H).
      specialize (IH Hno').
      destruct (split sep (a ++ String sep b)) as [|seg segs];
        simpl in IH |- *; rewrite IH; reflexivity.
Qed.

(** X22.  For a time stamp in the form [toISOString] gives, a day, the
    letter T and a time, both downloads are named after the day:
    [Daily_Digest_] followed by the day and the extension. *)
Theorem downloads_are_named_after_the_day (c : clock) (day time : string)
    (items : list NewsItem) :
  isoString c = day ++ String "T" time ->
  ~ In "T"%char (list_ascii_of_string day) ->
  option_map fileName (handleDownloadHtml c (Some items))
    = Some ("Daily_Digest_" ++ day ++ ".html")
  /\ option_map snd (handleDownloadExcel c (Some items))
     = Some ("Daily_Digest_" ++ day ++ ".xlsx").
Proof.
  intros Hiso Hday.
  assert (Hd : iso_day c = day)
    by (unfold iso_day; rewrite Hiso; apply hd_split; exact Hday).
  cbn [handleDownloadHtml handleDownloadExcel option_map fileName snd].
  rewrite Hd. split; reflexivity.
Qed.

Lemma downloads_are_named_after_the_day_witness :
  option_map fileName
    (handleDownloadHtml
       {| localeDate := "01 November 2026";
          isoString := "2026-11-01" ++ String "T" "18:13:07.123Z" |}
       (Some Server.sample_items))
    = Some ("Daily_Digest_" ++ "2026-11-01" ++ ".html")
  /\ option_map snd
       (handleDownloadExcel
          {| localeDate := "01 November 2026";
             isoString := "2026-11-01" ++ String "T" "18:13:07.123Z" |}
          (Some Server.sample_items))
     = Some ("Daily_Digest_" ++ "2026-11-01" ++ ".xlsx").
Proof.
  apply (downloads_are_named_after_the_day
           {| localeDate := "01 November 2026";
              isoString := "2026-11-01" ++ String "T" "18:13:07.123Z" |}
           "2026-11-01" "18:13:07.123Z" Server.sample_items).
  - reflexivity.
  - simpl. intuition discriminate.
Defined.

End ExportProperties.

(* ===================================================================== *)
(** * The upload queue                                                    *)
(* ===================================================================== *)

Section QueueProperties.
Import JSString App.

Lemma select_fold (fs : list File) :
  forall acc : state * list File,
    files (fst (fold_left select_one fs acc)) = files (fst acc)
    /\ snd (fold_left select_one fs acc) = snd acc ++ filter is_pdf fs.
Proof.
  induction fs as [|f fs IH]; intro acc; cbn [fold_left filter].
  - rewrite app_nil_r. split; reflexivity.
  - destruct (IH (select_one acc f)) as [Hf Hr]. rewrite Hf, Hr.
    unfold select_one, is_pdf.
    destruct (String.eqb (file_type f) PDF); cbn [negb fst snd].
    + rewrite <- app_assoc. split; reflexivity.
    + split; reflexivity.
Qed.

(** X23.  Selecting files changes nothing in the queue by itself: it
    starts one reader for each PDF of the selection, in order, skips
    every other file, and leaves the error message cleared, also when a
    file was skipped (the message "Only PDF files are supported." set for
    it is overwritten at the end of the handler). *)
Theorem selection_starts_readers_for_pdfs (fs : list File) (st : state) :
  files (fst (handleFileChange (Some fs) st)) = files st
  /\ snd (handleFileChange (Some fs) st) = filter is_pdf fs
  /\ error (fst (handleFileChange (Some fs) st)) = None.
Proof.
  unfold handleFileChange. cbn [fst snd].
  destruct (select_fold fs (st, [])) as [Hf Hr].
  split; [exact Hf|]. split; [exact Hr | reflexivity].
Qed.

Lemma remove_nth_Forall {A : Type} (P : A -> Prop) (l : list A) :
  forall n, Forall P l -> Forall P (remove_nth n l).
Proof.
  induction l as [|x l IH]; intros n H; [destruct n; constructor|].
  inversion H as [|? ? Hx Hl]; subst.
  destruct n as [|n]; cbn [remove_nth]; [exact Hl|].
  constructor; [exact Hx | apply IH; exact Hl].
Qed.

Lemma filter_Forall {A : Type} (P : A -> Prop) (keep : A -> bool)
    (l : list A) :
  Forall P l -> Forall P (filter keep l).
Proof.
  intro H. apply Forall_forall. intros x Hin. apply filter_In in Hin.
  destruct Hin as [Hin _]. rewrite Forall_forall in H. apply H. exact Hin.
Qed.

Lemma handleMessage_files (origin : string) (type : option string)
    (st : state) :
  files (handleMessage origin type st) = files st.
Proof.
  unfold handleMessage.
  destruct (negb (endsWith origin ".run.app")
            && negb (includes origin "localhost")); [reflexivity|].
  destruct type as [t|]; [|reflexivity].
  destruct (String.eqb t "OAUTH_AUTH_SUCCESS"); reflexivity.
Qed.

(** One action, by cases on the action. *)
Lemma step_keeps_pdfs (w : world) (a : action) :
  pdfs_only w -> pdfs_only (step w a).
Proof.
  intros [Hq Hr]. destruct a as [sel|n base64 rnd|i| |origin type];
    unfold pdfs_only; cbn [step].
  - destruct sel as [fs|].
    + destruct (select_fold fs (ui w, [])) as [Hf Hs].
      cbn [handleFileChange ui reading fst snd files setError].
      rewrite Hf, Hs. cbn [fst snd app]. split; [exact Hq|].
      apply Forall_app. split; [exact Hr|].
      apply Forall_forall. intros f Hin. apply filter_In in Hin.
      destruct Hin as [_ Hpdf]. apply String.eqb_eq. exact Hpdf.
    + cbn [handleFileChange ui reading fst snd]. rewrite app_nil_r.
      split; assumption.
  - destruct (nth_error (reading w) n) as [f|] eqn:Hn; [|split; assumption].
    cbn [ui reading reader_onload setFiles files]. split.
    + apply Forall_app. split; [exact Hq|].
      constructor; [|constructor]. cbn [mimeType].
      rewrite Forall_forall in Hr. apply Hr.
      apply (nth_error_In _ _ Hn).
    + apply remove_nth_Forall. exact Hr.
  - cbn [ui reading removeFile setFiles files]. split; [|exact Hr].
    apply filter_Forall. exact Hq.
  - cbn [ui reading clearAll setFiles files]. split; [constructor | exact Hr].
  - cbn [ui reading]. rewrite handleMessage_files. split; assumption.
Qed.

Lemma run_keeps_pdfs (acts : list action) :
  forall w, pdfs_only w -> pdfs_only (fold_left step acts w).
Proof.
  induction acts as [|a acts IH]; intros w Hw; [exact Hw|].
  cbn [fold_left]. apply IH. apply step_keeps_pdfs. exact Hw.
Qed.

Lemma inline_mimes_of_queue (fs : list UploadedFile) (prompt : string) :
  inline_mimes (map Gemini.file_part (map as_upload fs)
                  ++ [Gemini.TextPart prompt])
  = map mimeType fs.
Proof.
  induction fs as [|f fs IH]; [reflexivity|].
  cbn [map app inline_mimes Gemini.file_part as_upload Gemini.mimeType].
  rewrite IH. reflexivity.
Qed.

(** X24.  Whatever the user does (selecting files of any type, readers
    finishing in any order, removing files, clearing the queue, messages
    arriving), the queue holds PDFs only; so every document of a request
    built from the queue is sent with the media type application/pdf. *)
Theorem requests_carry_pdfs_only (acts : list action) :
  Forall (fun f => mimeType f = "application/pdf"%string)
    (files (ui (fold_left step acts start)))
  /\ Forall (fun m => m = "application/pdf"%string)
       (inline_mimes
          (flat_map Gemini.parts
             (Gemini.contents
                (request_of_queue (ui (fold_left step acts start)))))).
Proof.
  assert (Hinv : pdfs_only (fold_left step acts start)).
  { apply run_keeps_pdfs. split; constructor. }
  destruct Hinv as [Hq _]. split; [exact Hq|].
  unfold request_of_queue, Gemini.requestConfig.
  cbn [Gemini.contents flat_map Gemini.parts]. rewrite app_nil_r.
  rewrite inline_mimes_of_queue. apply Forall_forall.
  intros m Hm. apply in_map_iff in Hm. destruct Hm as (f & <- & Hf).
  rewrite Forall_forall in Hq. apply Hq. exact Hf.
Qed.

Lemma endsWith_app (pre suffix : string) :
  endsWith (pre ++ suffix)%string suffix = true.
Proof.
  induction pre as [|c pre IH].
  - cbn [append]. destruct suffix; cbn [endsWith]; rewrite String.eqb_refl;
      reflexivity.
  - cbn [append endsWith].
    destruct (String.eqb (String c (pre ++ suffix)) suffix);
      [reflexivity | exact IH].
Qed.

(** X25.  The origin check of the message listener lets through every
    origin that contains [localhost] anywhere in its text, and every
    origin that ends in [.run.app]: a message of type OAUTH_AUTH_SUCCESS
    from any such origin marks the account as connected. *)
Theorem message_origin_filter (before after : string) (st : state) :
  isGoogleConnected
    (handleMessage (before ++ "localhost" ++ after)%string
       (Some "OAUTH_AUTH_SUCCESS"%string) st) = true
  /\ isGoogleConnected
       (handleMessage (before ++ ".run.app")%string
          (Some "OAUTH_AUTH_SUCCESS"%string) st) = true.
Proof.
  unfold handleMessage. split.
  - rewrite includes_app. rewrite andb_false_r. reflexivity.
  - rewrite endsWith_app. reflexivity.
Qed.

End QueueProperties.

Section MissingText.
Import JSString JSON Gemini.

(** X26.  A response without text, or with the empty text, counts as the
    empty list: the function parses ["[]"] in its place and returns an
    empty array, after one call more than the failures retried before. *)
Theorem missing_text_is_empty_list (e : env) (svc : service)
    (files : list uploaded) (k : nat) (text : option string) :
  no_key e = false ->
  k <= 3 ->
  (forall i, i < k -> transient (svc i) = true) ->
  svc k = Resolved text ->
  text = None \/ text = Some EmptyString ->
  fst (processCurrentAffairs e svc files) = Return (JArray [])
  /\ attempts_made (snd (processCurrentAffairs e svc files)) = k + 1.
Proof.
  intros Hkey Hk Htr Hs Ht. unfold processCurrentAffairs. rewrite Hkey.
  assert (Hp : JSON.parse (or_else text "[]") = Some (JArray []))
    by (destruct Ht as [-> | ->]; vm_compute; reflexivity).
  rewrite (run_success svc _ k text (JArray []) Hk Htr Hs Hp).
  split; [reflexivity|]. cbn [snd].
  rewrite retry_prefix_attempts. reflexivity.
Qed.

Lemma missing_text_is_empty_list_witness :
  fst (processCurrentAffairs with_key (scripted [overloaded] (Resolved None))
         [sample_pdf]) = Return (JArray [])
  /\ attempts_made
       (snd (processCurrentAffairs with_key
               (scripted [overloaded] (Resolved None)) [sample_pdf])) = 1 + 1.
Proof.
  apply (missing_text_is_empty_list with_key
           (scripted [overloaded] (Resolved None)) [sample_pdf] 1 None).
  - reflexivity.
  - lia.
  - intros [|i] Hi; [reflexivity | lia].
  - reflexivity.
  - left. reflexivity.
Defined.

End MissingText.
